(** * ec2-autostartstop: the scheduled start/stop handler

    A shallow embedding of [ec2-autostartstop/lambda_function.py] and the
    properties of its decision logic.  Python values are modelled by the
    types they have at run time: [str] by [string], the hour and the
    calendar fields by [Z], a [dict] of tags by a [gmap], the parsed JSON
    document by [json].  Calls that reach outside the process (the clock,
    the holiday endpoint, the EC2 API) are fields of a [Platform]; the
    handler runs in a monad that threads the state of the outside world,
    a chronological trace of log records and API calls, and Python
    exceptions. *)

From Stdlib Require Import ZArith String Ascii List Bool Lia.
From stdpp Require Import base option list strings gmap pretty.

Open Scope string_scope.
Open Scope list_scope.
Open Scope Z_scope.

(** ** Exceptions and results *)

(** An instance of a subclass of Python's [Exception]: every exception
    that the standard library, [urllib], [json] and [boto3] raise on
    failure is one.  [exn_class] is the class name, [exn_message] the
    text of [str(e)]. *)
Record exn := Exn { exn_class : string; exn_message : string }.

Inductive result (A : Type) :=
| Ret (a : A)
| Raise (e : exn).
Arguments Ret {A} a.
Arguments Raise {A} e.

Definition is_Ret {A} (r : result A) : bool :=
  match r with Ret _ => true | Raise _ => false end.

(** ** JSON documents, as [json.loads] builds them

    A [dict] is represented by its items in insertion order. *)
#[local] Set Warnings "-register-all".
Inductive json :=
| JNull
| JBool (b : bool)
| JInt (n : Z)
| JFloat (repr : string)
| JStr (s : string)
| JArr (items : list json)
| JObj (items : list (string * json)).
#[local] Set Warnings "register-all".

(** ** The calendar arithmetic of [datetime]

    [datetime.now(JST)] builds the calendar fields from the POSIX
    timestamp; the helpers below follow CPython's reference
    implementation of the [datetime] module. *)
Module Datetime.

Definition _DAYS_IN_MONTH : list Z :=
  [-1; 31; 28; 31; 30; 31; 30; 31; 31; 30; 31; 30; 31].

Definition _DAYS_BEFORE_MONTH : list Z :=
  [-1; 0; 31; 59; 90; 120; 151; 181; 212; 243; 273; 304; 334].

Definition index (l : list Z) (i : Z) : Z := nth (Z.to_nat i) l 0.

Definition _is_leap (year : Z) : bool :=
  (year mod 4 =? 0) && (negb (year mod 100 =? 0) || (year mod 400 =? 0)).

Definition _days_before_year (year : Z) : Z :=
  let y := year - 1 in
  y * 365 + y / 4 - y / 100 + y / 400.

Definition _days_in_month (year month : Z) : Z :=
  if (month =? 2) && _is_leap year then 29 else index _DAYS_IN_MONTH month.

Definition _days_before_month (year month : Z) : Z :=
  index _DAYS_BEFORE_MONTH month
  + (if (2 <? month) && _is_leap year then 1 else 0).

Definition _ymd2ord (year month day : Z) : Z :=
  _days_before_year year + _days_before_month year month + day.

Definition _DI400Y : Z := Eval cbv in _days_before_year 401.
Definition _DI100Y : Z := Eval cbv in _days_before_year 101.
Definition _DI4Y : Z := Eval cbv in _days_before_year 5.

Definition _ord2ymd (n : Z) : Z * Z * Z :=
  let n := n - 1 in
  let n400 := n / _DI400Y in
  let n := n mod _DI400Y in
  let year := n400 * 400 + 1 in
  let n100 := n / _DI100Y in
  let n := n mod _DI100Y in
  let n4 := n / _DI4Y in
  let n := n mod _DI4Y in
  let n1 := n / 365 in
  let n := n mod 365 in
  let year := year + (n100 * 100 + n4 * 4 + n1) in
  if (n1 =? 4) || (n100 =? 4) then (year - 1, 12, 31)
  else
    let leapyear := (n1 =? 3) && (negb (n4 =? 24) || (n100 =? 3)) in
    let month := Z.shiftr (n + 50) 5 in
    let preceding :=
      index _DAYS_BEFORE_MONTH month
      + (if (2 <? month) && leapyear then 1 else 0) in
    if n <? preceding then
      let month := month - 1 in
      let preceding :=
        preceding
        - (index _DAYS_IN_MONTH month
           + (if (month =? 2) && leapyear then 1 else 0)) in
      (year, month, n - preceding + 1)
    else (year, month, n - preceding + 1).

(** The fields of an aware [datetime] that the handler reads. *)
Record datetime := {
  year : Z; month : Z; day : Z;
  hour : Z; minute : Z; second : Z
}.

(** Ordinal of 1970-01-01. *)
Definition EPOCH_ORDINAL : Z := Eval cbv in _ymd2ord 1970 1 1.

(** [datetime.fromtimestamp(t, tz)] for a fixed-offset [tz] of [offset]
    seconds and a timestamp of [t] whole seconds since the epoch. *)
Definition fromtimestamp (t offset : Z) : datetime :=
  let local := t + offset in
  let days := local / 86400 in
  let secs := local mod 86400 in
  let '(y, m, d) := _ord2ymd (EPOCH_ORDINAL + days) in
  {| year := y; month := m; day := d;
     hour := secs / 3600;
     minute := secs mod 3600 / 60;
     second := secs mod 60 |}.

Definition toordinal (dt : datetime) : Z :=
  _ymd2ord (year dt) (month dt) (day dt).

(** Monday is 0, Sunday is 6. *)
Definition weekday (dt : datetime) : Z := (toordinal dt + 6) mod 7.

Definition digit (n : Z) : ascii := ascii_of_nat (48 + Z.to_nat (n mod 10)).

(** [%02d] and [%04d] of a non-negative number that fits the width. *)
Definition pad2 (n : Z) : string :=
  String (digit (n / 10)) (String (digit n) "").
Definition pad4 (n : Z) : string :=
  String (digit (n / 1000)) (String (digit (n / 100)) (pad2 n)).

(** [dt.strftime('%Y-%m-%d')], for the four-digit years of [datetime.now]. *)
Definition strftime_Ymd (dt : datetime) : string :=
  pad4 (year dt) +:+ "-" +:+ pad2 (month dt) +:+ "-" +:+ pad2 (day dt).

End Datetime.

Import Datetime.

(** [timedelta(hours=9)], in seconds. *)
Definition JST : Z := 9 * 3600.

Definition REGION : string := "ap-northeast-1".

(** [BASE_HOLIDAY_API_URL.format(year=year)]. *)
Definition BASE_HOLIDAY_API_URL_format (year : Z) : string :=
  "https://holidays-jp.github.io/api/v1/" +:+ pretty year +:+ "/date.json".

(** ** Values of the built-in types *)

(** [x in l] for a list of strings. *)
Definition list_contains (l : list string) (x : string) : bool :=
  existsb (String.eqb x) l.

(** The subscript of [l[...]]. *)
Inductive subscript :=
| IntIndex (i : Z)
| StrIndex (s : string).

(** [list.__getitem__]: a list takes integer subscripts only. *)
Definition list_getitem {A} (l : list A) (k : subscript) : result A :=
  match k with
  | IntIndex i =>
      let j := if i <? 0 then i + Z.of_nat (length l) else i in
      if j <? 0 then Raise (Exn "IndexError" "list index out of range")
      else match nth_error l (Z.to_nat j) with
           | Some a => Ret a
           | None => Raise (Exn "IndexError" "list index out of range")
           end
  | StrIndex _ =>
      Raise (Exn "TypeError" "list indices must be integers or slices, not str")
  end.

(** The class name of a JSON value, for the text of an [AttributeError]. *)
Definition type_name (v : json) : string :=
  match v with
  | JNull => "NoneType" | JBool _ => "bool" | JInt _ => "int"
  | JFloat _ => "float" | JStr _ => "str" | JArr _ => "list"
  | JObj _ => "dict"
  end.

Definition no_attribute (v : json) (attr : string) : exn :=
  Exn "AttributeError"
      ("'" +:+ type_name v +:+ "' object has no attribute '" +:+ attr +:+ "'").

(** [list(v.keys())]: only a [dict] has [keys]. *)
Definition dict_keys (v : json) : result (list string) :=
  match v with
  | JObj items => Ret (map fst items)
  | _ => Raise (no_attribute v "keys")
  end.

Fixpoint assoc (items : list (string * json)) (key : string) : option json :=
  match items with
  | [] => None
  | (k, v) :: rest => if String.eqb k key then Some v else assoc rest key
  end.

(** [v.get(key, default)]: only a [dict] has [get]. *)
Definition dict_get (v : json) (key : string) (default : json) : result json :=
  match v with
  | JObj items => Ret (match assoc items key with Some x => x | None => default end)
  | _ => Raise (no_attribute v "get")
  end.

(** [target in ['ec2', 'all']] for a string list: a value that is not a
    [str] is equal to none of its elements. *)
Definition json_in_strings (v : json) (l : list string) : bool :=
  match v with
  | JStr s => list_contains l s
  | _ => false
  end.

(** Truth value of a [str]. *)
Definition truthy (s : string) : bool := negb (String.eqb s "").

(** ** The EC2 inventory *)

(** An element of [r['Instances']]; [Tags] is [None] when the instance
    has no ['Tags'] key, else the list of its [(Key, Value)] pairs. *)
Record instance := {
  InstanceId : string;
  Tags : option (list (string * string))
}.

(** [response['Reservations']], each reservation given by its
    ['Instances']. *)
Definition reservations : Type := list (list instance).

Record filter := { Name : string; Values : list string }.

(** An element of [instances_info]: [(instance_id, tag_value, all_tags)]. *)
Definition instance_info : Type := string * string * gmap string string.

(** ** Trace of an invocation *)

Inductive api_call :=
| Urlopen (url : string)
| DescribeInstances (Filters : list filter)
| StartInstances (InstanceIds : list string)
| StopInstances (InstanceIds : list string).

Inductive level := INFO | ERROR.

(** One constructor per logging statement of the source, with the values
    its f-string interpolates. *)
Inductive message :=
| MsgRestDayStopOnly
| MsgDefaultAction (default_action : string) (target : json)
| MsgHandlerFailed (e : exn)
| MsgTodayIsHoliday (name : string)
| MsgTodayIsWeekend
| MsgHolidays (year : Z) (holidays : list string)
| MsgHolidaysUnavailable (e : exn)
| MsgNoTargets
| MsgInstance (instance_id tag_value : string)
    (all_tags : gmap string string) (default_action : string)
| MsgNoOperation (instance_id tag_value default_action : string)
| MsgTargets (instances_info : list instance_info)
| MsgDescribeFailed (e : exn)
| MsgStarting (resource_type : string) (ids : list string)
    (tags : gmap string string)
| MsgStarted (resource_type response : string)
| MsgStartFailed (resource_type : string) (e : exn)
| MsgStopping (resource_type : string) (ids : list string)
    (tags : gmap string string)
| MsgStopped (resource_type response : string)
| MsgStopFailed (resource_type : string) (e : exn).

Inductive event :=
| Log (lvl : level) (msg : message)
| Call (c : api_call).

(** ** The outside world

    What the handler cannot compute: the clock, the holiday endpoint and
    the EC2 API.  Each operation may change the state of the world and,
    except for the clock, may raise. *)
Record Platform := {
  world : Type;
  http_response : Type;
  (** [time.time()], in whole seconds *)
  time_time : world -> Z * world;
  (** [urllib.request.urlopen(url)] *)
  urlopen : string -> world -> result http_response * world;
  (** [response.read()] *)
  http_read : http_response -> world -> result string * world;
  (** [bytes.decode('utf-8')] *)
  decode_utf8 : string -> result string;
  (** [json.loads(data)] *)
  json_loads : string -> result json;
  (** [ec2_client.describe_instances(Filters=filters)], read up to
      [response['Reservations'][..]['Instances']] *)
  describe_instances : list filter -> world -> result reservations * world;
  (** [ec2_client.start_instances(InstanceIds=ids)] *)
  start_instances_api : list string -> world -> result string * world;
  (** [ec2_client.stop_instances(InstanceIds=ids)] *)
  stop_instances_api : list string -> world -> result string * world
}.

(** ** The monad of the handler: world, trace and exceptions *)

Record state (P : Platform) := {
  outside : world P;
  trace : list event
}.
Arguments outside {P} s.
Arguments trace {P} s.

Definition M (P : Platform) (A : Type) : Type := state P -> result A * state P.

Definition ret {P A} (a : A) : M P A := fun s => (Ret a, s).

Definition bind {P A B} (m : M P A) (k : A -> M P B) : M P B :=
  fun s =>
    match m s with
    | (Ret a, s') => k a s'
    | (Raise e, s') => (Raise e, s')
    end.

(** A pure operation that may raise. *)
Definition lift {P A} (r : result A) : M P A := fun s => (r, s).

(** [try: body / except Exception as e: handler e]. *)
Definition try_except {P A} (body : M P A) (handler : exn -> M P A) : M P A :=
  fun s =>
    match body s with
    | (Ret a, s') => (Ret a, s')
    | (Raise e, s') => handler e s'
    end.

Declare Scope py_scope.
Delimit Scope py_scope with py.
Notation "x <- m ;; k" := (bind m (fun x => k))
  (at level 100, m at next level, right associativity) : py_scope.
Notation "m ;; k" := (bind m (fun _ => k))
  (at level 100, right associativity) : py_scope.
Open Scope py_scope.

Definition emit {P} (ev : event) : M P unit :=
  fun s => (Ret tt, {| outside := outside s; trace := trace s ++ [ev] |}).

Definition logger_info {P} (msg : message) : M P unit := emit (Log INFO msg).
Definition logger_error {P} (msg : message) : M P unit := emit (Log ERROR msg).

(** An operation on the world that leaves no record in the trace. *)
Definition io {P A} (op : world P -> result A * world P) : M P A :=
  fun s =>
    let '(r, w') := op (outside s) in
    (r, {| outside := w'; trace := trace s |}).

(** An API call: recorded in the trace, then performed on the world. *)
Definition api {P A} (c : api_call)
    (op : world P -> result A * world P) : M P A :=
  fun s =>
    let '(r, w') := op (outside s) in
    (r, {| outside := w'; trace := trace s ++ [Call c] |}).

(** [datetime.now(tz)]. *)
Definition datetime_now {P} (tz : Z) : M P datetime :=
  fun s =>
    let '(t, w') := time_time P (outside s) in
    (Ret (fromtimestamp t tz), {| outside := w'; trace := trace s |}).

(** [for x in l: body x]. *)
Fixpoint for_each {P X} (l : list X) (body : X -> M P unit) : M P unit :=
  match l with
  | [] => ret tt
  | x :: rest => body x ;; for_each rest body
  end.

(** ** The handler *)

Section Handler.

Context {P : Platform}.

Definition determine_action : M P string :=
  now <- datetime_now JST ;;
  let hour := hour now in
  ret (if (8 <=? hour) && (hour <? 18) then "start" else "stop").

Definition get_japan_holidays : M P (list string) :=
  now <- datetime_now JST ;;
  let year := year now in
  let holiday_url := BASE_HOLIDAY_API_URL_format year in
  try_except
    (response <- api (Urlopen holiday_url) (urlopen P holiday_url) ;;
     raw <- io (http_read P response) ;;
     data <- lift (decode_utf8 P raw) ;;
     holidays_data <- lift (json_loads P data) ;;
     holidays <- lift (dict_keys holidays_data) ;;
     logger_info (MsgHolidays year holidays) ;;
     ret holidays)
    (fun e =>
       logger_error (MsgHolidaysUnavailable e) ;;
       ret []).

Definition is_japan_holiday : M P bool :=
  today <- datetime_now JST ;;
  holidays <- get_japan_holidays ;;
  if list_contains holidays (strftime_Ymd today) then
    name <- lift (list_getitem holidays (StrIndex (strftime_Ymd today))) ;;
    logger_info (MsgTodayIsHoliday name) ;;
    ret true
  else if 5 <=? weekday today then
    logger_info MsgTodayIsWeekend ;;
    ret true
  else
    ret false.

Definition should_start (tag_value default_action : string) : bool :=
  if String.eqb default_action "start" then
    list_contains ["true"; "start"; "auto"] tag_value
  else false.

Definition should_stop (tag_value default_action : string) : bool :=
  if String.eqb default_action "stop" then
    list_contains ["true"; "stop"; "auto"] tag_value
  else false.

(** The [client] argument of the source is always [ec2_client]. *)
Definition start_instances (ids : list string) (resource_type : string)
    (tags : gmap string string) : M P unit :=
  logger_info (MsgStarting resource_type ids tags) ;;
  try_except
    (response <- api (StartInstances ids) (start_instances_api P ids) ;;
     logger_info (MsgStarted resource_type response))
    (fun e => logger_error (MsgStartFailed resource_type e)).

Definition stop_instances (ids : list string) (resource_type : string)
    (tags : gmap string string) : M P unit :=
  logger_info (MsgStopping resource_type ids tags) ;;
  try_except
    (response <- api (StopInstances ids) (stop_instances_api P ids) ;;
     logger_info (MsgStopped resource_type response))
    (fun e => logger_error (MsgStopFailed resource_type e)).

(** [{t['Key']: t['Value'] for t in i.get('Tags', [])}]: a later pair
    replaces an earlier one with the same key. *)
Definition tags_of (i : instance) : gmap string string :=
  fold_left (fun d t => <[fst t := snd t]> d)
            (match Tags i with Some l => l | None => [] end) ∅.

(** Body of the inner loop of [get_ec2_instances_with_tag]. *)
Definition collect_instance (tag_key : string)
    (instances_info : list instance_info) (i : instance)
    : list instance_info :=
  let tags := tags_of i in
  match tags !! tag_key with
  | Some tag_value =>
      if truthy tag_value
      then instances_info ++ [(InstanceId i, tag_value, tags)]
      else instances_info
  | None => instances_info
  end.

Definition collect_instances (tag_key : string) (response : reservations)
    : list instance_info :=
  fold_left (fun acc r => fold_left (collect_instance tag_key) r acc)
            response [].

Definition get_ec2_instances_with_tag (tag_key : string)
    : M P (list instance_info) :=
  let filters :=
    [ {| Name := "tag-key"; Values := [tag_key] |};
      {| Name := "instance-state-name"; Values := ["stopped"; "running"] |} ] in
  try_except
    (response <- api (DescribeInstances filters) (describe_instances P filters) ;;
     let instances_info := collect_instances tag_key response in
     logger_info (MsgTargets instances_info) ;;
     ret instances_info)
    (fun e =>
       logger_error (MsgDescribeFailed e) ;;
       ret []).

(** Body of the loop of [manage_ec2_instances]. *)
Definition manage_instance (default_action : string) (info : instance_info)
    : M P unit :=
  let '(instance_id, tag_value, all_tags) := info in
  logger_info (MsgInstance instance_id tag_value all_tags default_action) ;;
  if should_start tag_value default_action then
    start_instances [instance_id] "EC2" all_tags
  else if should_stop tag_value default_action then
    stop_instances [instance_id] "EC2" all_tags
  else
    logger_info (MsgNoOperation instance_id tag_value default_action).

Definition manage_ec2_instances (default_action : string) : M P unit :=
  instances_info <- get_ec2_instances_with_tag "autostartstop" ;;
  match instances_info with
  | [] => logger_info MsgNoTargets
  | _ => for_each instances_info (manage_instance default_action)
  end.

(** First statements of [lambda_handler]: the time-derived default
    action, overridden on a rest day. *)
Definition decide_default_action : M P string :=
  default_action <- determine_action ;;
  rest <- is_japan_holiday ;;
  if rest : bool then
    logger_info MsgRestDayStopOnly ;;
    ret "stop"
  else
    ret default_action.

(** The [try] block of [lambda_handler]. *)
Definition lambda_handler_try (event : json) : M P unit :=
  default_action <- decide_default_action ;;
  target <- lift (dict_get event "target" (JStr "all")) ;;
  logger_info (MsgDefaultAction default_action target) ;;
  if json_in_strings target ["ec2"; "all"] then
    manage_ec2_instances default_action
  else
    ret tt.

Definition lambda_handler (event : json) : M P unit :=
  try_except
    (lambda_handler_try event)
    (fun e => logger_error (MsgHandlerFailed e)).

End Handler.

(** ** Vocabulary of the properties *)

(** What the loop of [manage_ec2_instances] does for one instance: the
    branch its [if]/[elif]/[else] takes. *)
Inductive ResolvedAction := Start | Stop | NoOp.

Definition resolveInstanceAction (tag_value default_action : string)
    : ResolvedAction :=
  if should_start tag_value default_action then Start
  else if should_stop tag_value default_action then Stop
  else NoOp.

(** The EC2 command that goes with a resolved action. *)
Definition command_of (default_action : string) (info : instance_info)
    : list api_call :=
  match resolveInstanceAction (snd (fst info)) default_action with
  | Start => [StartInstances [fst (fst info)]]
  | Stop => [StopInstances [fst (fst info)]]
  | NoOp => []
  end.

(** The API calls of a trace, in the order they were made. *)
Definition calls_of (tr : list event) : list api_call :=
  flat_map (fun ev => match ev with Call c => [c] | Log _ _ => [] end) tr.

(** The state [s] after the records [evs] were appended to its trace. *)
Definition logged {P} (s : state P) (evs : list event) : state P :=
  {| outside := outside s; trace := trace s ++ evs |}.

(** The filters [get_ec2_instances_with_tag] sends. *)
Definition filters_for (tag_key : string) : list filter :=
  [ {| Name := "tag-key"; Values := [tag_key] |};
    {| Name := "instance-state-name"; Values := ["stopped"; "running"] |} ].

(** The clock reading [datetime.now(JST)] sees in state [s]. *)
Definition now_in {P} (s : state P) : datetime :=
  fromtimestamp (fst (time_time P (outside s))) JST.

(** The record that opens the handling of one instance. *)
Definition handling (default_action : string) (info : instance_info) : event :=
  Log INFO (MsgInstance (fst (fst info)) (snd (fst info)) (snd info)
              default_action).

(** No element of [l] has the empty string as tag value. *)
Definition nonempty_values (l : list instance_info) : Prop :=
  forall info, In info l -> snd (fst info) <> "".

(** The state [s] after [datetime.now] read the clock. *)
Definition ticked {P} (s : state P) : state P :=
  {| outside := snd (time_time P (outside s)); trace := trace s |}.

(** The address [get_japan_holidays] fetches when called in state [s]. *)
Definition holiday_url_in {P} (s : state P) : string :=
  BASE_HOLIDAY_API_URL_format (year (now_in s)).

(** A fetch or parse failure of the holiday data: the step of the [try]
    block of [get_japan_holidays] that raises, from [urlopen] to
    [keys()], in a world [w] for the address [url]. *)
Inductive fetch_failure (P : Platform) (w : world P) (url : string)
    : exn -> Prop :=
| urlopen_raises e w1 :
    urlopen P url w = (Raise e, w1) ->
    fetch_failure P w url e
| read_raises response w1 e w2 :
    urlopen P url w = (Ret response, w1) ->
    http_read P response w1 = (Raise e, w2) ->
    fetch_failure P w url e
| decode_raises response w1 raw w2 e :
    urlopen P url w = (Ret response, w1) ->
    http_read P response w1 = (Ret raw, w2) ->
    decode_utf8 P raw = Raise e ->
    fetch_failure P w url e
| loads_raises response w1 raw w2 data e :
    urlopen P url w = (Ret response, w1) ->
    http_read P response w1 = (Ret raw, w2) ->
    decode_utf8 P raw = Ret data ->
    json_loads P data = Raise e ->
    fetch_failure P w url e
| keys_raises response w1 raw w2 data holidays_data e :
    urlopen P url w = (Ret response, w1) ->
    http_read P response w1 = (Ret raw, w2) ->
    decode_utf8 P raw = Ret data ->
    json_loads P data = Ret holidays_data ->
    dict_keys holidays_data = Raise e ->
    fetch_failure P w url e.

(** What the inner loop of [get_ec2_instances_with_tag] keeps of one
    instance: nothing, or its element of [instances_info]. *)
Definition selected (tag_key : string) (i : instance) : list instance_info :=
  collect_instance tag_key [] i.

(** The value an instance's tags give a key, [""] when they give none;
    the instances that have a non-empty one, and the tuple the inventory
    is to return for such an instance. *)
Definition tag_value_of (tag_key : string) (i : instance) : string :=
  match tags_of i !! tag_key with
  | Some tag_value => tag_value
  | None => ""
  end.
Definition eligible (tag_key : string) (i : instance) : bool :=
  negb (String.eqb (tag_value_of tag_key i) "").
Definition entry_of (tag_key : string) (i : instance) : instance_info :=
  (InstanceId i, tag_value_of tag_key i, tags_of i).

(** The tag values under which an instance is started, and stopped. *)
Definition start_values (tag_value : string) : Prop :=
  tag_value = "true" \/ tag_value = "start" \/ tag_value = "auto".
Definition stop_values (tag_value : string) : Prop :=
  tag_value = "true" \/ tag_value = "stop" \/ tag_value = "auto".

Definition is_start (c : api_call) : bool :=
  match c with StartInstances _ => true | _ => false end.
Definition is_stop (c : api_call) : bool :=
  match c with StopInstances _ => true | _ => false end.

(** The record that closes a start or stop call: success with the
    response, or the error that was caught. *)
Definition start_outcome (resource_type : string) (r : result string) : event :=
  match r with
  | Ret response => Log INFO (MsgStarted resource_type response)
  | Raise e => Log ERROR (MsgStartFailed resource_type e)
  end.
Definition stop_outcome (resource_type : string) (r : result string) : event :=
  match r with
  | Ret response => Log INFO (MsgStopped resource_type response)
  | Raise e => Log ERROR (MsgStopFailed resource_type e)
  end.

(** The exception of a list subscripted with a [str]. *)
Definition list_index_type_error : exn :=
  Exn "TypeError" "list indices must be integers or slices, not str".

(** ** A scripted world, for running the handler on concrete inputs

    The clock shows [now]; fetching the holiday data raises at [urlopen]
    ([holidays] is [Raise e]) or yields a body that parses to a document
    ([holidays] is [Ret v]); the inventory answers with [fleet]; a start
    or stop call raises when it names an instance of [broken]. *)
Definition client_error : exn :=
  Exn "ClientError" "An error occurred when calling the operation".

Definition scripted (now : Z) (holidays : result json)
    (fleet : result reservations) (broken : list string) : Platform :=
  {| world := unit;
     http_response := unit;
     time_time := fun w => (now, w);
     urlopen := fun _ w =>
       (match holidays with Raise e => Raise e | Ret _ => Ret tt end, w);
     http_read := fun _ w => (Ret "", w);
     decode_utf8 := fun raw => Ret raw;
     json_loads := fun _ => holidays;
     describe_instances := fun _ w => (fleet, w);
     start_instances_api := fun ids w =>
       (if existsb (list_contains broken) ids then Raise client_error
        else Ret "StartingInstances", w);
     stop_instances_api := fun ids w =>
       (if existsb (list_contains broken) ids then Raise client_error
        else Ret "StoppingInstances", w) |}.

Definition url_error : exn :=
  Exn "URLError" "<urlopen error [Errno -3] Temporary failure in name resolution>".

Definition initial (P : Platform) (w : world P) : state P :=
  {| outside := w; trace := [] |}.

(** The state in which an invocation starts in a scripted world. *)
Definition invocation (now : Z) (holidays : result json)
    (fleet : result reservations) (broken : list string)
    : state (scripted now holidays fleet broken) :=
  initial (scripted now holidays fleet broken) tt.

(** 2025-01-01 10:00:00 JST, a Wednesday and a public holiday. *)
Definition new_year_morning : Z := 1735693200.

(** 2025-01-04 10:00:00 JST, a Saturday. *)
Definition saturday_morning : Z := 1735952400.

(** 2025-01-06 10:00:00 JST and 20:00:00 JST, a Monday. *)
Definition monday_morning : Z := 1736125200.
Definition monday_evening : Z := 1736161200.

(** 2025-05-03 10:00:00 JST, a Saturday and a public holiday. *)
Definition constitution_day_morning : Z := 1746234000.

Definition holidays_2025 : json :=
  JObj [("2025-01-01", JStr "New Year's Day");
        ("2025-01-13", JStr "Coming of Age Day");
        ("2025-05-03", JStr "Constitution Memorial Day")].

Definition tagged (id value : string) : instance :=
  {| InstanceId := id; Tags := Some [("Name", id); ("autostartstop", value)] |}.

Definition three_instances : reservations :=
  [[tagged "i-1" "true"; tagged "i-2" "start"]; [tagged "i-3" "stop"]].

Definition fleet_with_empty_tag : reservations :=
  [[tagged "i-1" "true"; tagged "i-2" ""]].

Definition fleet_with_untagged : reservations :=
  [[tagged "i-1" "true";
    {| InstanceId := "i-2"; Tags := None |};
    {| InstanceId := "i-3"; Tags := Some [("Name", "batch")] |}]].

(** * Properties *)

Example url_2025 :
  BASE_HOLIDAY_API_URL_format 2025
  = "https://holidays-jp.github.io/api/v1/2025/date.json".
Proof. vm_compute. reflexivity. Qed.

Example calendar_samples :
  let d1 := fromtimestamp new_year_morning JST in
  let d2 := fromtimestamp saturday_morning JST in
  let d3 := fromtimestamp monday_evening JST in
  (strftime_Ymd d1, weekday d1, hour d1) = ("2025-01-01", 2, 10)
  /\ (strftime_Ymd d2, weekday d2, hour d2) = ("2025-01-04", 5, 10)
  /\ (strftime_Ymd d3, weekday d3, hour d3) = ("2025-01-06", 0, 20).
Proof. vm_compute. auto. Qed.

(** From 2024-01-01 to the end of 2027 the calendar fields of a day give
    back its ordinal, and the weekday advances by one a day from the
    Thursday of 1970-01-01. *)
Example calendar_round_trip :
  forallb
    (fun k =>
       let days := 19723 + Z.of_nat k in
       let '(y, m, d) := _ord2ymd (EPOCH_ORDINAL + days) in
       (_ymd2ord y m d =? EPOCH_ORDINAL + days)
       && (weekday (fromtimestamp (days * 86400) 0) =? (days + 3) mod 7))
    (seq 0 1461)
  = true.
Proof. vm_compute. reflexivity. Qed.

(** ** Tag values against the default action *)

Lemma list_contains_In (l : list string) (x : string) :
  list_contains l x = true <-> In x l.
Proof.
  unfold list_contains. rewrite existsb_exists. split.
  - intros (y & Hy & Heq). apply String.eqb_eq in Heq. now subst.
  - intros H. exists x. split; [exact H | apply String.eqb_refl].
Qed.

Lemma should_start_iff (tag_value default_action : string) :
  should_start tag_value default_action = true
  <-> default_action = "start"
      /\ (tag_value = "true" \/ tag_value = "start" \/ tag_value = "auto").
Proof.
  unfold should_start.
  destruct (String.eqb_spec default_action "start") as [-> | Hne].
  - rewrite list_contains_In. simpl. intuition congruence.
  - split; [discriminate | intros [? _]; contradiction].
Qed.

Lemma should_stop_iff (tag_value default_action : string) :
  should_stop tag_value default_action = true
  <-> default_action = "stop"
      /\ (tag_value = "true" \/ tag_value = "stop" \/ tag_value = "auto").
Proof.
  unfold should_stop.
  destruct (String.eqb_spec default_action "stop") as [-> | Hne].
  - rewrite list_contains_In. simpl. intuition congruence.
  - split; [discriminate | intros [? _]; contradiction].
Qed.

Lemma should_stop_during_start (tag_value : string) :
  should_stop tag_value "start" = false.
Proof. reflexivity. Qed.

Lemma should_start_during_stop (tag_value : string) :
  should_start tag_value "stop" = false.
Proof. reflexivity. Qed.

(** C2: with the default action "start" the resolved action is Start
    exactly for the tag values "true", "start" and "auto" and NoOp for
    every other tag value; with the default action "stop" it is Stop
    exactly for "true", "stop" and "auto" and NoOp otherwise; the tag
    value "stop" under the default action "start" resolves to NoOp. *)
Theorem C2_resolveInstanceAction_table (tag_value : string) :
  (tag_value = "true" \/ tag_value = "start" \/ tag_value = "auto" ->
   resolveInstanceAction tag_value "start" = Start)
  /\ (~ (tag_value = "true" \/ tag_value = "start" \/ tag_value = "auto") ->
      resolveInstanceAction tag_value "start" = NoOp)
  /\ (tag_value = "true" \/ tag_value = "stop" \/ tag_value = "auto" ->
      resolveInstanceAction tag_value "stop" = Stop)
  /\ (~ (tag_value = "true" \/ tag_value = "stop" \/ tag_value = "auto") ->
      resolveInstanceAction tag_value "stop" = NoOp)
  /\ resolveInstanceAction "stop" "start" = NoOp.
Proof.
  unfold resolveInstanceAction.
  rewrite should_stop_during_start, should_start_during_stop.
  pose proof (should_start_iff tag_value "start") as Hstart.
  pose proof (should_stop_iff tag_value "stop") as Hstop.
  repeat split.
  - intros H. destruct (should_start tag_value "start"); [reflexivity |].
    assert (false = true) by (apply Hstart; auto). discriminate.
  - intros H. destruct (should_start tag_value "start"); [| reflexivity].
    exfalso. apply H. apply Hstart. reflexivity.
  - intros H. destruct (should_stop tag_value "stop"); [reflexivity |].
    assert (false = true) by (apply Hstop; auto). discriminate.
  - intros H. destruct (should_stop tag_value "stop"); [| reflexivity].
    exfalso. apply H. apply Hstop. reflexivity.
Qed.

Lemma C2_resolveInstanceAction_table_witness :
  resolveInstanceAction "auto" "start" = Start
  /\ resolveInstanceAction "True" "start" = NoOp
  /\ resolveInstanceAction "auto" "stop" = Stop
  /\ resolveInstanceAction "start" "stop" = NoOp.
Proof.
  destruct (C2_resolveInstanceAction_table "auto") as (H1 & _ & H3 & _).
  destruct (C2_resolveInstanceAction_table "True") as (_ & H2 & _).
  destruct (C2_resolveInstanceAction_table "start") as (_ & _ & _ & H4 & _).
  split; [apply H1; auto |].
  split; [apply H2; intros [H | [H | H]]; discriminate H |].
  split; [apply H3; auto |].
  apply H4; intros [H | [H | H]]; discriminate H.
Defined.

(** The loop body acts on the resolved action. *)
Lemma manage_instance_resolved {P} (default_action : string)
    (instance_id tag_value : string) (all_tags : gmap string string) :
  @manage_instance P default_action (instance_id, tag_value, all_tags)
  = (logger_info (MsgInstance instance_id tag_value all_tags default_action) ;;
     match resolveInstanceAction tag_value default_action with
     | Start => start_instances [instance_id] "EC2" all_tags
     | Stop => stop_instances [instance_id] "EC2" all_tags
     | NoOp => logger_info (MsgNoOperation instance_id tag_value default_action)
     end).
Proof.
  unfold manage_instance, resolveInstanceAction.
  destruct (should_start tag_value default_action); [reflexivity |].
  destruct (should_stop tag_value default_action); reflexivity.
Qed.

(** ** The time-derived default action *)

Lemma fromtimestamp_hour (t offset : Z) :
  hour (fromtimestamp t offset) = ((t + offset) / 3600) mod 24.
Proof.
  unfold fromtimestamp.
  destruct (_ord2ymd _) as [[y m] d]. simpl.
  change 86400 with (3600 * 24).
  rewrite Z.rem_mul_r by lia.
  rewrite (Z.mul_comm 3600), Z.div_add by lia.
  rewrite Z.div_small by (apply Z.mod_pos_bound; lia).
  reflexivity.
Qed.

Lemma determine_action_run {P} (s : state P) :
  determine_action s
  = (Ret (if (8 <=? hour (now_in s)) && (hour (now_in s) <? 18)
          then "start" else "stop"),
     {| outside := snd (time_time P (outside s)); trace := trace s |}).
Proof.
  unfold determine_action, bind, datetime_now, ret, now_in.
  destruct (time_time P (outside s)) as [t w']. reflexivity.
Qed.

(** C3: for every timestamp the clock shows, [determine_action] returns
    "start" if and only if the hour of that timestamp in UTC+9 is at
    least 8 and below 18, and returns "stop" otherwise. *)
Theorem C3_determine_action_window (P : Platform) (s : state P) :
  let t := fst (time_time P (outside s)) in
  let local_hour := ((t + 9 * 3600) / 3600) mod 24 in
  (fst (determine_action s) = Ret "start" <-> 8 <= local_hour < 18)
  /\ (fst (determine_action s) = Ret "stop" <-> ~ (8 <= local_hour < 18)).
Proof.
  intros t local_hour.
  rewrite determine_action_run. simpl.
  assert (Hh : hour (now_in s) = local_hour)
    by (unfold now_in; apply fromtimestamp_hour).
  rewrite Hh.
  destruct (Z.leb_spec 8 local_hour), (Z.ltb_spec local_hour 18); simpl;
    (split; split; intros H'; try discriminate H'; try reflexivity; try lia).
Qed.

Lemma C3_determine_action_window_witness :
  fst (determine_action (invocation monday_morning (Ret holidays_2025) (Ret []) []))
  = Ret "start"
  /\ fst (determine_action (invocation monday_evening (Ret holidays_2025) (Ret []) []))
     = Ret "stop".
Proof.
  split.
  - apply (C3_determine_action_window _
             (invocation monday_morning (Ret holidays_2025) (Ret []) [])).
    vm_compute. split; [discriminate | reflexivity].
  - apply (C3_determine_action_window _
             (invocation monday_evening (Ret holidays_2025) (Ret []) [])).
    vm_compute. intros [_ H]. discriminate H.
Defined.

(** ** At most one command for an instance *)

Lemma calls_of_app (tr1 tr2 : list event) :
  calls_of (tr1 ++ tr2) = calls_of tr1 ++ calls_of tr2.
Proof. unfold calls_of. apply flat_map_app. Qed.

Lemma start_instances_calls {P} (ids : list string) (rt : string)
    (tags : gmap string string) (s : state P) :
  fst (start_instances ids rt tags s) = Ret tt
  /\ calls_of (trace (snd (start_instances ids rt tags s)))
     = calls_of (trace s) ++ [StartInstances ids].
Proof.
  unfold start_instances, bind, try_except, logger_info, logger_error,
    emit, api. simpl.
  destruct (start_instances_api P ids (outside s)) as [[resp | e] w']; simpl;
    rewrite !calls_of_app; simpl; rewrite !app_nil_r; auto.
Qed.

Lemma stop_instances_calls {P} (ids : list string) (rt : string)
    (tags : gmap string string) (s : state P) :
  fst (stop_instances ids rt tags s) = Ret tt
  /\ calls_of (trace (snd (stop_instances ids rt tags s)))
     = calls_of (trace s) ++ [StopInstances ids].
Proof.
  unfold stop_instances, bind, try_except, logger_info, logger_error,
    emit, api. simpl.
  destruct (stop_instances_api P ids (outside s)) as [[resp | e] w']; simpl;
    rewrite !calls_of_app; simpl; rewrite !app_nil_r; auto.
Qed.

Lemma bind_logger_info {P A} (msg : message) (k : unit -> M P A) (s : state P) :
  bind (logger_info msg) k s = k tt (logged s [Log INFO msg]).
Proof. reflexivity. Qed.

Lemma calls_of_logged_log {P} (s : state P) (lvl : level) (msg : message) :
  calls_of (trace (logged s [Log lvl msg])) = calls_of (trace s).
Proof. simpl. rewrite calls_of_app. simpl. apply app_nil_r. Qed.

(** One pass of the loop body never raises and makes exactly the call of
    the resolved action, whatever that call returns or raises. *)
Lemma manage_instance_calls {P} (default_action : string)
    (info : instance_info) (s : state P) :
  fst (manage_instance default_action info s) = Ret tt
  /\ calls_of (trace (snd (manage_instance default_action info s)))
     = calls_of (trace s) ++ command_of default_action info.
Proof.
  destruct info as [[instance_id tag_value] all_tags].
  rewrite manage_instance_resolved, bind_logger_info.
  unfold command_of. simpl.
  rewrite <- (calls_of_logged_log s INFO
                (MsgInstance instance_id tag_value all_tags default_action)).
  destruct (resolveInstanceAction tag_value default_action).
  - apply start_instances_calls.
  - apply stop_instances_calls.
  - split; [reflexivity |].
    unfold logger_info, emit. simpl. rewrite !calls_of_app. reflexivity.
Qed.

(** C10: [should_start] and [should_stop] are never both true for the
    same tag value and default action, so one pass of the loop over an
    instance makes at most one EC2 call, a start or a stop. *)
Theorem C10_start_stop_exclusive (tag_value default_action : string) :
  should_start tag_value default_action && should_stop tag_value default_action
  = false
  /\ forall (P : Platform) (instance_id : string)
       (all_tags : gmap string string) (s : state P),
       exists cs,
         calls_of (trace (snd (manage_instance default_action
                                 (instance_id, tag_value, all_tags) s)))
         = calls_of (trace s) ++ cs
         /\ (cs = [] \/ cs = [StartInstances [instance_id]]
             \/ cs = [StopInstances [instance_id]]).
Proof.
  split.
  - unfold should_start, should_stop.
    destruct (String.eqb_spec default_action "start") as [-> | Hne];
      [apply andb_false_r | reflexivity].
  - intros P instance_id all_tags s.
    exists (command_of default_action (instance_id, tag_value, all_tags)).
    split; [apply manage_instance_calls |].
    unfold command_of. simpl.
    destruct (resolveInstanceAction tag_value default_action); auto.
Qed.

(** ** The inventory *)

Lemma get_ec2_instances_with_tag_ok {P} (tag_key : string) (s : state P)
    (response : reservations) (w' : world P) :
  describe_instances P (filters_for tag_key) (outside s) = (Ret response, w') ->
  get_ec2_instances_with_tag tag_key s
  = (Ret (collect_instances tag_key response),
     {| outside := w';
        trace := trace s
                 ++ [Call (DescribeInstances (filters_for tag_key));
                     Log INFO (MsgTargets (collect_instances tag_key response))] |}).
Proof.
  intros H.
  unfold get_ec2_instances_with_tag, try_except, bind, api, logger_info,
    emit, ret.
  fold (filters_for tag_key). rewrite H. simpl.
  rewrite <- app_assoc. reflexivity.
Qed.

Lemma get_ec2_instances_with_tag_error {P} (tag_key : string) (s : state P)
    (e : exn) (w' : world P) :
  describe_instances P (filters_for tag_key) (outside s) = (Raise e, w') ->
  get_ec2_instances_with_tag tag_key s
  = (Ret [],
     {| outside := w';
        trace := trace s
                 ++ [Call (DescribeInstances (filters_for tag_key));
                     Log ERROR (MsgDescribeFailed e)] |}).
Proof.
  intros H.
  unfold get_ec2_instances_with_tag, try_except, bind, api, logger_error,
    emit, ret.
  fold (filters_for tag_key). rewrite H. simpl.
  rewrite <- app_assoc. reflexivity.
Qed.

(** ** Every instance of the list is handled *)

Lemma start_instances_trace {P} (ids : list string) (rt : string)
    (tags : gmap string string) (s : state P) :
  exists ext, trace (snd (start_instances ids rt tags s)) = trace s ++ ext.
Proof.
  unfold start_instances, bind, try_except, logger_info, logger_error,
    emit, api. simpl.
  destruct (start_instances_api P ids (outside s)) as [[resp | e] w']; simpl;
    rewrite <- !app_assoc; eexists; reflexivity.
Qed.

Lemma stop_instances_trace {P} (ids : list string) (rt : string)
    (tags : gmap string string) (s : state P) :
  exists ext, trace (snd (stop_instances ids rt tags s)) = trace s ++ ext.
Proof.
  unfold stop_instances, bind, try_except, logger_info, logger_error,
    emit, api. simpl.
  destruct (stop_instances_api P ids (outside s)) as [[resp | e] w']; simpl;
    rewrite <- !app_assoc; eexists; reflexivity.
Qed.

Lemma manage_instance_trace {P} (default_action : string)
    (info : instance_info) (s : state P) :
  exists ext,
    trace (snd (manage_instance default_action info s))
    = trace s ++ handling default_action info :: ext.
Proof.
  destruct info as [[instance_id tag_value] all_tags].
  rewrite manage_instance_resolved, bind_logger_info.
  unfold handling. simpl.
  set (s1 := logged s _).
  assert (Hs1 : trace s1
                = trace s ++ [Log INFO (MsgInstance instance_id tag_value
                                          all_tags default_action)])
    by reflexivity.
  destruct (resolveInstanceAction tag_value default_action).
  - destruct (start_instances_trace [instance_id] "EC2" all_tags s1) as [ext ->].
    exists ext. rewrite Hs1, <- app_assoc. reflexivity.
  - destruct (stop_instances_trace [instance_id] "EC2" all_tags s1) as [ext ->].
    exists ext. rewrite Hs1, <- app_assoc. reflexivity.
  - eexists. unfold logger_info, emit. subst s1. simpl.
    rewrite <- app_assoc. reflexivity.
Qed.

Lemma for_each_manage_instance {P} (default_action : string)
    (instances_info : list instance_info) :
  forall s : state P,
    let r := for_each instances_info (manage_instance default_action) s in
    fst r = Ret tt
    /\ calls_of (trace (snd r))
       = calls_of (trace s) ++ flat_map (command_of default_action) instances_info
    /\ exists ext,
         trace (snd r) = trace s ++ ext
         /\ forall info, In info instances_info ->
                         In (handling default_action info) ext.
Proof.
  induction instances_info as [| info rest IH]; intros s; simpl.
  - split; [reflexivity |]. split; [now rewrite app_nil_r |].
    exists []. split; [now rewrite app_nil_r | intros ? []].
  - unfold bind.
    destruct (manage_instance_calls default_action info s) as [Hret Hcalls].
    destruct (manage_instance_trace default_action info s) as [ext1 Htrace].
    destruct (manage_instance default_action info s) as [r1 s1].
    simpl in Hret, Hcalls, Htrace. subst r1.
    destruct (IH s1) as (Hr & Hc & ext2 & Ht & Hin).
    split; [exact Hr |]. split.
    + rewrite Hc, Hcalls, <- app_assoc. reflexivity.
    + exists (handling default_action info :: ext1 ++ ext2). split.
      * rewrite Ht, Htrace, <- app_assoc. reflexivity.
      * intros info' [<- | Hrest]; [left; reflexivity |].
        right. apply in_or_app. right. apply Hin, Hrest.
Qed.

Lemma manage_ec2_instances_run {P} (default_action : string) (s : state P)
    (response : reservations) (w' : world P) :
  describe_instances P (filters_for "autostartstop") (outside s)
  = (Ret response, w') ->
  let instances_info := collect_instances "autostartstop" response in
  let r := manage_ec2_instances default_action s in
  fst r = Ret tt
  /\ calls_of (trace (snd r))
     = calls_of (trace s)
       ++ DescribeInstances (filters_for "autostartstop")
          :: flat_map (command_of default_action) instances_info
  /\ forall info, In info instances_info ->
                  In (handling default_action info) (trace (snd r)).
Proof.
  intros Hdescribe instances_info r. subst r.
  unfold manage_ec2_instances, bind.
  rewrite (get_ec2_instances_with_tag_ok _ _ _ _ Hdescribe).
  fold instances_info.
  set (s1 := {| outside := w'; trace := _ |}).
  assert (Hs1 : calls_of (trace s1)
                = calls_of (trace s)
                  ++ [DescribeInstances (filters_for "autostartstop")])
    by (subst s1; simpl; rewrite calls_of_app; reflexivity).
  destruct instances_info as [| info rest] eqn:Hinfos.
  - split; [reflexivity |]. split; [| intros ? []].
    unfold logger_info, emit, snd, trace at 1.
    rewrite calls_of_app, Hs1, <- app_assoc. reflexivity.
  - destruct (for_each_manage_instance default_action (info :: rest) s1)
      as (Hr & Hc & ext & Ht & Hin).
    split; [exact Hr |]. split.
    + rewrite Hc, Hs1, <- app_assoc. reflexivity.
    + intros info' Hin'. rewrite Ht. apply in_or_app. right.
      apply Hin, Hin'.
Qed.

(** C7: whatever each start or stop call returns or raises,
    [manage_ec2_instances] returns normally, opens the handling of every
    instance of the list it was given, and has issued, in the order of
    the list, the resolved command of every instance: a failed call
    leaves the handling of the instances after it unchanged. *)
Theorem C7_manage_ec2_instances_handles_all (P : Platform)
    (default_action : string) (s : state P)
    (response : reservations) (w' : world P) :
  describe_instances P (filters_for "autostartstop") (outside s)
  = (Ret response, w') ->
  let instances_info := collect_instances "autostartstop" response in
  let r := manage_ec2_instances default_action s in
  fst r = Ret tt
  /\ calls_of (trace (snd r))
     = calls_of (trace s)
       ++ DescribeInstances (filters_for "autostartstop")
          :: flat_map (command_of default_action) instances_info
  /\ forall info, In info instances_info ->
                  In (handling default_action info) (trace (snd r)).
Proof. apply manage_ec2_instances_run. Qed.

Lemma C7_manage_ec2_instances_handles_all_witness :
  let s := invocation monday_morning (Ret holidays_2025)
             (Ret three_instances) ["i-1"] in
  let r := manage_ec2_instances "start" s in
  fst r = Ret tt
  /\ calls_of (trace (snd r))
     = calls_of (trace s)
       ++ DescribeInstances (filters_for "autostartstop")
          :: flat_map (command_of "start")
               (collect_instances "autostartstop" three_instances)
  /\ forall info,
       In info (collect_instances "autostartstop" three_instances) ->
       In (handling "start" info) (trace (snd r)).
Proof.
  apply (C7_manage_ec2_instances_handles_all
           (scripted monday_morning (Ret holidays_2025)
              (Ret three_instances) ["i-1"])
           "start" (invocation monday_morning (Ret holidays_2025)
                      (Ret three_instances) ["i-1"])
           three_instances tt).
  reflexivity.
Defined.

(** The start call for the first instance raises; the second instance is
    started all the same, and the third is left alone. *)
Example first_start_fails :
  let s := invocation monday_morning (Ret holidays_2025)
             (Ret three_instances) ["i-1"] in
  fst (start_instances_api _ ["i-1"] (outside s)) = Raise client_error
  /\ calls_of (trace (snd (manage_ec2_instances "start" s)))
     = [DescribeInstances (filters_for "autostartstop");
        StartInstances ["i-1"]; StartInstances ["i-2"]]
  /\ In (Log ERROR (MsgStartFailed "EC2" client_error))
        (trace (snd (manage_ec2_instances "start" s))).
Proof.
  split; [reflexivity |]. split; [vm_compute; reflexivity |].
  vm_compute. do 5 right. left. reflexivity.
Qed.

(** ** Instances with an empty tag value *)

Lemma collect_instance_empty_value (tag_key : string)
    (acc : list instance_info) (i : instance) :
  tags_of i !! tag_key = Some "" ->
  collect_instance tag_key acc i = acc.
Proof. intros H. unfold collect_instance. rewrite H. reflexivity. Qed.

Lemma collect_instances_skip (tag_key : string) (rs1 rs2 : reservations)
    (r1 r2 : list instance) (i : instance) :
  tags_of i !! tag_key = Some "" ->
  collect_instances tag_key (rs1 ++ (r1 ++ i :: r2) :: rs2)
  = collect_instances tag_key (rs1 ++ (r1 ++ r2) :: rs2).
Proof.
  intros H. unfold collect_instances.
  rewrite !fold_left_app. simpl. rewrite !fold_left_app. simpl.
  rewrite (collect_instance_empty_value _ _ _ H). reflexivity.
Qed.

Lemma collect_instance_nonempty (tag_key : string)
    (acc : list instance_info) (i : instance) :
  nonempty_values acc -> nonempty_values (collect_instance tag_key acc i).
Proof.
  intros Hacc. unfold collect_instance.
  destruct (tags_of i !! tag_key) as [tag_value |]; [| exact Hacc].
  unfold truthy. destruct (String.eqb_spec tag_value "") as [_ | Hne];
    simpl; [exact Hacc |].
  intros info Hin. apply in_app_or in Hin as [Hin | [<- | []]];
    [apply Hacc, Hin | exact Hne].
Qed.

Lemma collect_instances_nonempty (tag_key : string) (response : reservations) :
  nonempty_values (collect_instances tag_key response).
Proof.
  unfold collect_instances.
  assert (Hinner : forall r acc, nonempty_values acc ->
            nonempty_values (fold_left (collect_instance tag_key) r acc)).
  { induction r as [| i r IH]; intros acc Hacc; simpl; [exact Hacc |].
    apply IH, collect_instance_nonempty, Hacc. }
  assert (Houter : forall rs acc, nonempty_values acc ->
            nonempty_values
              (fold_left (fun acc r => fold_left (collect_instance tag_key) r acc)
                 rs acc)).
  { induction rs as [| r rs IH]; intros acc Hacc; simpl; [exact Hacc |].
    apply IH, Hinner, Hacc. }
  apply Houter. intros ? [].
Qed.

(** C9: an instance that the provider returns and whose tag
    [autostartstop] has the empty string as value is left out of the
    result of [get_ec2_instances_with_tag]: the result is the one of the
    same answer without that instance, no element of it has an empty tag
    value, and [manage_ec2_instances] issues the commands of the other
    instances only. *)
Theorem C9_empty_tag_value_excluded (P : Platform) (s : state P)
    (rs1 rs2 : reservations) (r1 r2 : list instance) (i : instance)
    (w' : world P) :
  tags_of i !! "autostartstop" = Some "" ->
  describe_instances P (filters_for "autostartstop") (outside s)
  = (Ret (rs1 ++ (r1 ++ i :: r2) :: rs2), w') ->
  let others := collect_instances "autostartstop" (rs1 ++ (r1 ++ r2) :: rs2) in
  fst (get_ec2_instances_with_tag "autostartstop" s) = Ret others
  /\ (forall info, In info others -> snd (fst info) <> "")
  /\ forall default_action,
       calls_of (trace (snd (manage_ec2_instances default_action s)))
       = calls_of (trace s)
         ++ DescribeInstances (filters_for "autostartstop")
            :: flat_map (command_of default_action) others.
Proof.
  intros Hempty Hdescribe others.
  split; [| split].
  - rewrite (get_ec2_instances_with_tag_ok _ _ _ _ Hdescribe). simpl.
    f_equal. apply collect_instances_skip, Hempty.
  - apply collect_instances_nonempty.
  - intros default_action.
    destruct (manage_ec2_instances_run default_action s _ _ Hdescribe)
      as (_ & Hcalls & _).
    rewrite Hcalls, (collect_instances_skip _ _ _ _ _ _ Hempty).
    reflexivity.
Qed.

Lemma C9_empty_tag_value_excluded_witness :
  let s := invocation monday_morning (Ret holidays_2025)
             (Ret fleet_with_empty_tag) [] in
  let others := collect_instances "autostartstop" [[tagged "i-1" "true"]] in
  fst (get_ec2_instances_with_tag "autostartstop" s) = Ret others
  /\ (forall info, In info others -> snd (fst info) <> "")
  /\ forall default_action,
       calls_of (trace (snd (manage_ec2_instances default_action s)))
       = calls_of (trace s)
         ++ DescribeInstances (filters_for "autostartstop")
            :: flat_map (command_of default_action) others.
Proof.
  apply (C9_empty_tag_value_excluded
           (scripted monday_morning (Ret holidays_2025)
              (Ret fleet_with_empty_tag) [])
           (invocation monday_morning (Ret holidays_2025)
              (Ret fleet_with_empty_tag) [])
           [] [] [tagged "i-1" "true"] [] (tagged "i-2" "") tt).
  - vm_compute. reflexivity.
  - reflexivity.
Defined.

Example empty_tag_value_not_listed :
  map (fun info => fst (fst info))
      (collect_instances "autostartstop" fleet_with_empty_tag)
  = ["i-1"].
Proof. vm_compute. reflexivity. Qed.

(** ** The holiday list *)

Lemma bind_datetime_now {P A} (k : datetime -> M P A) (s : state P) :
  bind (datetime_now JST) k s = k (now_in s) (ticked s).
Proof.
  unfold bind, datetime_now, now_in, ticked.
  destruct (time_time P (outside s)) as [t w']. reflexivity.
Qed.

Lemma get_japan_holidays_failure {P} (s : state P) (e : exn) :
  fetch_failure P (outside (ticked s)) (holiday_url_in s) e ->
  fst (get_japan_holidays s) = Ret []
  /\ trace (snd (get_japan_holidays s))
     = trace s ++ [Call (Urlopen (holiday_url_in s));
                   Log ERROR (MsgHolidaysUnavailable e)].
Proof.
  intros Hfail. unfold get_japan_holidays. rewrite bind_datetime_now.
  fold (holiday_url_in s).
  unfold try_except, bind, api, io, lift, logger_info, logger_error, emit, ret.
  destruct Hfail as
    [ e w1 Hopen
    | response w1 e w2 Hopen Hread
    | response w1 raw w2 e Hopen Hread Hdecode
    | response w1 raw w2 data e Hopen Hread Hdecode Hloads
    | response w1 raw w2 data holidays_data e Hopen Hread Hdecode Hloads Hkeys ];
    rewrite Hopen; simpl;
    try (rewrite Hread; simpl);
    try (rewrite Hdecode; simpl);
    try (rewrite Hloads; simpl);
    try (rewrite Hkeys; simpl);
    rewrite <- app_assoc; split; reflexivity.
Qed.

Lemma get_japan_holidays_returns {P} (s : state P) :
  exists holidays, fst (get_japan_holidays s) = Ret holidays.
Proof.
  unfold get_japan_holidays. rewrite bind_datetime_now.
  unfold try_except, bind, api, io, lift, logger_info, logger_error, emit, ret.
  destruct (urlopen P _ _) as [[response | e] w1]; simpl; [| eauto].
  destruct (http_read P response w1) as [[raw | e] w2]; simpl; [| eauto].
  destruct (decode_utf8 P raw) as [data | e]; simpl; [| eauto].
  destruct (json_loads P data) as [holidays_data | e]; simpl; [| eauto].
  destruct (dict_keys holidays_data) as [holidays | e]; simpl; eauto.
Qed.

Lemma is_japan_holiday_unlisted {P} (s : state P) (holidays : list string) :
  fst (get_japan_holidays (ticked s)) = Ret holidays ->
  list_contains holidays (strftime_Ymd (now_in s)) = false ->
  fst (is_japan_holiday s) = Ret (5 <=? weekday (now_in s)).
Proof.
  intros Hget Hnot. unfold is_japan_holiday. rewrite bind_datetime_now.
  unfold bind at 1.
  destruct (get_japan_holidays (ticked s)) as [r s2]. simpl in Hget. subst r.
  rewrite Hnot.
  destruct (5 <=? weekday (now_in s)); reflexivity.
Qed.

(** On a day that is in the list the subscript [holidays[...]] of the
    log statement is evaluated first, on a list, with a string. *)
Lemma is_japan_holiday_listed {P} (s : state P) (holidays : list string) :
  fst (get_japan_holidays (ticked s)) = Ret holidays ->
  list_contains holidays (strftime_Ymd (now_in s)) = true ->
  is_japan_holiday s
  = (Raise (Exn "TypeError" "list indices must be integers or slices, not str"),
     snd (get_japan_holidays (ticked s))).
Proof.
  intros Hget Hin. unfold is_japan_holiday. rewrite bind_datetime_now.
  unfold bind at 1.
  destruct (get_japan_holidays (ticked s)) as [r s2]. simpl in Hget. subst r.
  rewrite Hin. reflexivity.
Qed.

(** C6: when a step of the fetch or of the parse of the holiday data
    raises, [get_japan_holidays] returns the empty list and logs the
    error instead of raising, and [is_japan_holiday], which called it,
    goes on to decide on the weekday alone. *)
Theorem C6_get_japan_holidays_fail_open (P : Platform) (s : state P) (e : exn) :
  let s1 := ticked s in
  fetch_failure P (outside (ticked s1)) (holiday_url_in s1) e ->
  fst (get_japan_holidays s1) = Ret []
  /\ trace (snd (get_japan_holidays s1))
     = trace s1 ++ [Call (Urlopen (holiday_url_in s1));
                    Log ERROR (MsgHolidaysUnavailable e)]
  /\ fst (is_japan_holiday s) = Ret (5 <=? weekday (now_in s)).
Proof.
  intros s1 Hfail.
  destruct (get_japan_holidays_failure s1 e Hfail) as [Hret Htrace].
  split; [exact Hret |]. split; [exact Htrace |].
  apply (is_japan_holiday_unlisted s [] Hret). reflexivity.
Qed.

Lemma C6_get_japan_holidays_fail_open_witness :
  let s := invocation monday_morning (Raise url_error) (Ret []) [] in
  let s1 := ticked s in
  fst (get_japan_holidays s1) = Ret []
  /\ trace (snd (get_japan_holidays s1))
     = trace s1 ++ [Call (Urlopen (holiday_url_in s1));
                    Log ERROR (MsgHolidaysUnavailable url_error)]
  /\ fst (is_japan_holiday s) = Ret (5 <=? weekday (now_in s)).
Proof.
  apply (C6_get_japan_holidays_fail_open
           (scripted monday_morning (Raise url_error) (Ret []) [])
           (invocation monday_morning (Raise url_error) (Ret []) [])
           url_error).
  eapply urlopen_raises; reflexivity.
Defined.

(** A document that is not an object fails at [keys()]. *)
Example holidays_not_an_object :
  let s := invocation monday_morning (Ret (JArr [])) (Ret []) [] in
  fst (get_japan_holidays s) = Ret []
  /\ In (Log ERROR (MsgHolidaysUnavailable (no_attribute (JArr []) "keys")))
        (trace (snd (get_japan_holidays s))).
Proof. split; [reflexivity |]. vm_compute. right. left. reflexivity. Qed.

(** ** Rest days *)

(** X18: on a Saturday or a Sunday [is_japan_holiday] returns [True]
    after a failed fetch, with the empty list, and with every fetched
    list that does not name the day. *)
Theorem weekend_unlisted_is_rest_day (P : Platform) (s : state P) :
  weekday (now_in s) = 5 \/ weekday (now_in s) = 6 ->
  (forall e,
     fetch_failure P (outside (ticked (ticked s))) (holiday_url_in (ticked s)) e ->
     fst (is_japan_holiday s) = Ret true)
  /\ (forall holidays,
        fst (get_japan_holidays (ticked s)) = Ret holidays ->
        holidays = []
        \/ list_contains holidays (strftime_Ymd (now_in s)) = false ->
        fst (is_japan_holiday s) = Ret true).
Proof.
  intros Hweekend.
  assert (Hday : (5 <=? weekday (now_in s)) = true)
    by (apply Z.leb_le; lia).
  split.
  - intros e Hfail.
    destruct (get_japan_holidays_failure (ticked s) e Hfail) as [Hret _].
    rewrite (is_japan_holiday_unlisted s [] Hret eq_refl), Hday. reflexivity.
  - intros holidays Hget Hunlisted.
    assert (Hnot : list_contains holidays (strftime_Ymd (now_in s)) = false)
      by (destruct Hunlisted as [-> | H]; [reflexivity | exact H]).
    rewrite (is_japan_holiday_unlisted s holidays Hget Hnot), Hday.
    reflexivity.
Qed.

Lemma weekend_unlisted_is_rest_day_witness :
  fst (is_japan_holiday
         (invocation saturday_morning (Raise url_error) (Ret []) []))
  = Ret true
  /\ fst (is_japan_holiday
            (invocation saturday_morning (Ret (JObj [])) (Ret []) []))
     = Ret true.
Proof.
  split.
  - destruct (weekend_unlisted_is_rest_day
                (scripted saturday_morning (Raise url_error) (Ret []) [])
                (invocation saturday_morning (Raise url_error) (Ret []) []))
      as [Hfail _].
    + left. vm_compute. reflexivity.
    + apply (Hfail url_error). eapply urlopen_raises; reflexivity.
  - destruct (weekend_unlisted_is_rest_day
                (scripted saturday_morning (Ret (JObj [])) (Ret []) [])
                (invocation saturday_morning (Ret (JObj [])) (Ret []) []))
      as [_ Hempty].
    + left. vm_compute. reflexivity.
    + apply (Hempty []); [reflexivity | left; reflexivity].
Defined.

(** C1: on 2025-01-01, a Wednesday that the fetched holiday list names,
    [is_japan_holiday] does not return: the subscript in its log
    statement raises [TypeError].  [lambda_handler] logs the error and
    ends without having asked for the inventory. *)
Theorem C1_listed_holiday_raises :
  let s := invocation new_year_morning (Ret holidays_2025)
             (Ret three_instances) [] in
  weekday (now_in s) = 2
  /\ fst (get_japan_holidays (ticked s))
     = Ret ["2025-01-01"; "2025-01-13"; "2025-05-03"]
  /\ strftime_Ymd (now_in s) = "2025-01-01"
  /\ fst (is_japan_holiday s)
     = Raise (Exn "TypeError" "list indices must be integers or slices, not str")
  /\ calls_of (trace (snd (lambda_handler (JObj []) s)))
     = [Urlopen "https://holidays-jp.github.io/api/v1/2025/date.json"].
Proof. vm_compute. repeat split; reflexivity. Qed.

(** A working day in the morning: the instances are started. *)
Example working_day_starts :
  let s := invocation monday_morning (Ret holidays_2025)
             (Ret three_instances) [] in
  fst (is_japan_holiday s) = Ret false
  /\ calls_of (trace (snd (lambda_handler (JObj []) s)))
     = [Urlopen "https://holidays-jp.github.io/api/v1/2025/date.json";
        DescribeInstances (filters_for "autostartstop");
        StartInstances ["i-1"]; StartInstances ["i-2"]].
Proof. vm_compute. split; reflexivity. Qed.

(** A weekend day: only the instance tagged "stop" or "true" is stopped. *)
Example saturday_stops :
  let s := invocation saturday_morning (Raise url_error)
             (Ret three_instances) [] in
  calls_of (trace (snd (lambda_handler (JObj []) s)))
  = [Urlopen "https://holidays-jp.github.io/api/v1/2025/date.json";
     DescribeInstances (filters_for "autostartstop");
     StopInstances ["i-1"]; StopInstances ["i-3"]].
Proof. vm_compute. reflexivity. Qed.

(** C5: on 2025-05-03, a Saturday that the fetched holiday list names,
    [is_japan_holiday] does not return [True]: the test of the weekday
    is an [elif] behind the test of the list, and the branch of a listed
    day raises [TypeError] at the subscript of its log statement.
    [lambda_handler] logs the error and ends without the inventory call,
    so that no stop is issued on that weekend day. *)
Theorem C5_listed_weekend_raises :
  let s := invocation constitution_day_morning (Ret holidays_2025)
             (Ret three_instances) [] in
  weekday (now_in s) = 5
  /\ strftime_Ymd (now_in s) = "2025-05-03"
  /\ fst (get_japan_holidays (ticked s))
     = Ret ["2025-01-01"; "2025-01-13"; "2025-05-03"]
  /\ fst (is_japan_holiday s)
     = Raise (Exn "TypeError" "list indices must be integers or slices, not str")
  /\ calls_of (trace (snd (lambda_handler (JObj []) s)))
     = [Urlopen "https://holidays-jp.github.io/api/v1/2025/date.json"].
Proof. vm_compute. repeat split; reflexivity. Qed.

(** ** The handler *)

Lemma decide_default_action_run {P} (s s1 s2 : state P)
    (default_action : string) (rest : bool) :
  determine_action s = (Ret default_action, s1) ->
  is_japan_holiday s1 = (Ret rest, s2) ->
  decide_default_action s
  = if rest then (Ret "stop", logged s2 [Log INFO MsgRestDayStopOnly])
    else (Ret default_action, s2).
Proof.
  intros Hdet Hrest. unfold decide_default_action, bind.
  rewrite Hdet, Hrest. destruct rest; reflexivity.
Qed.

(** C4: when [is_japan_holiday] returns [True], the default action
    [lambda_handler] passes to [manage_ec2_instances] is "stop",
    whatever [determine_action] returned; when it returns [False], it is
    the value [determine_action] returned. *)
Theorem C4_rest_day_forces_stop (P : Platform) (event target : json)
    (s s1 s2 : state P) (default_action : string) :
  determine_action s = (Ret default_action, s1) ->
  dict_get event "target" (JStr "all") = Ret target ->
  json_in_strings target ["ec2"; "all"] = true ->
  (is_japan_holiday s1 = (Ret true, s2) ->
   fst (decide_default_action s) = Ret "stop"
   /\ lambda_handler_try event s
      = manage_ec2_instances "stop"
          (logged s2 [Log INFO MsgRestDayStopOnly;
                      Log INFO (MsgDefaultAction "stop" target)]))
  /\ (is_japan_holiday s1 = (Ret false, s2) ->
      fst (decide_default_action s) = Ret default_action
      /\ lambda_handler_try event s
         = manage_ec2_instances default_action
             (logged s2 [Log INFO (MsgDefaultAction default_action target)])).
Proof.
  intros Hdet Hget Htarget. split; intros Hrest.
  - split.
    + rewrite (decide_default_action_run s s1 s2 _ _ Hdet Hrest). reflexivity.
    + unfold lambda_handler_try, bind at 1.
      rewrite (decide_default_action_run s s1 s2 _ _ Hdet Hrest).
      unfold bind at 1, lift. rewrite Hget, bind_logger_info, Htarget.
      unfold logged. simpl. rewrite <- app_assoc. reflexivity.
  - split.
    + rewrite (decide_default_action_run s s1 s2 _ _ Hdet Hrest). reflexivity.
    + unfold lambda_handler_try, bind at 1.
      rewrite (decide_default_action_run s s1 s2 _ _ Hdet Hrest).
      unfold bind at 1, lift. rewrite Hget, bind_logger_info, Htarget.
      reflexivity.
Qed.

Lemma C4_rest_day_forces_stop_witness :
  fst (decide_default_action
         (invocation saturday_morning (Ret holidays_2025)
            (Ret three_instances) []))
  = Ret "stop"
  /\ fst (decide_default_action
            (invocation monday_morning (Ret holidays_2025)
               (Ret three_instances) []))
     = Ret "start".
Proof.
  split.
  - eapply (C4_rest_day_forces_stop
              (scripted saturday_morning (Ret holidays_2025)
                 (Ret three_instances) [])
              (JObj []) (JStr "all")
              (invocation saturday_morning (Ret holidays_2025)
                 (Ret three_instances) [])
              _ _ "start");
      vm_compute; reflexivity.
  - eapply (C4_rest_day_forces_stop
              (scripted monday_morning (Ret holidays_2025)
                 (Ret three_instances) [])
              (JObj []) (JStr "all")
              (invocation monday_morning (Ret holidays_2025)
                 (Ret three_instances) [])
              _ _ "start");
      vm_compute; reflexivity.
Defined.

(** C8: [lambda_handler] never raises: an exception that leaves its
    [try] block is caught, logged as an error, and the handler returns
    normally. *)
Theorem C8_lambda_handler_never_raises (P : Platform) (event : json)
    (s : state P) :
  fst (lambda_handler event s) = Ret tt
  /\ forall e s',
       lambda_handler_try event s = (Raise e, s') ->
       lambda_handler event s
       = (Ret tt, logged s' [Log ERROR (MsgHandlerFailed e)]).
Proof.
  unfold lambda_handler, try_except.
  destruct (lambda_handler_try event s) as [[[] | e] s'].
  - split; [reflexivity | intros ? ? H; discriminate H].
  - split; [reflexivity |].
    intros e' s'' H. injection H as <- <-. reflexivity.
Qed.

Lemma C8_lambda_handler_never_raises_witness :
  let s := invocation monday_morning (Ret holidays_2025)
             (Ret three_instances) [] in
  lambda_handler JNull s
  = (Ret tt,
     logged (snd (lambda_handler_try JNull s))
       [Log ERROR (MsgHandlerFailed (no_attribute JNull "get"))]).
Proof.
  apply (C8_lambda_handler_never_raises
           (scripted monday_morning (Ret holidays_2025)
              (Ret three_instances) [])
           JNull
           (invocation monday_morning (Ret holidays_2025)
              (Ret three_instances) [])).
  vm_compute. reflexivity.
Defined.

(** * Further properties of the handler's functions *)

(** ** What [get_ec2_instances_with_tag] returns *)

Lemma collect_instance_selected (tag_key : string)
    (acc : list instance_info) (i : instance) :
  collect_instance tag_key acc i = acc ++ selected tag_key i.
Proof.
  unfold selected, collect_instance.
  destruct (tags_of i !! tag_key) as [tag_value |];
    [destruct (truthy tag_value) |]; simpl; now rewrite ?app_nil_r.
Qed.

Lemma collect_instances_flat_map (tag_key : string) (response : reservations) :
  collect_instances tag_key response
  = flat_map (selected tag_key) (concat response).
Proof.
  unfold collect_instances.
  assert (Hinner : forall r acc,
            fold_left (collect_instance tag_key) r acc
            = acc ++ flat_map (selected tag_key) r).
  { induction r as [| i r IH]; intros acc; simpl; [now rewrite app_nil_r |].
    rewrite IH, collect_instance_selected, <- app_assoc. reflexivity. }
  assert (Houter : forall rs acc,
            fold_left (fun acc r => fold_left (collect_instance tag_key) r acc)
              rs acc
            = acc ++ flat_map (selected tag_key) (concat rs)).
  { induction rs as [| r rs IH]; intros acc; simpl; [now rewrite app_nil_r |].
    rewrite IH, Hinner, flat_map_app, <- app_assoc. reflexivity. }
  apply (Houter response []).
Qed.

Lemma selected_iff (tag_key : string) (i : instance) (info : instance_info) :
  In info (selected tag_key i)
  <-> exists tag_value,
        tags_of i !! tag_key = Some tag_value
        /\ tag_value <> ""
        /\ info = (InstanceId i, tag_value, tags_of i).
Proof.
  unfold selected, collect_instance, truthy.
  destruct (tags_of i !! tag_key) as [tag_value |].
  - destruct (String.eqb_spec tag_value "") as [-> | Hne]; simpl.
    + split; [intros [] | intros (tv & [= <-] & Hne & _); now apply Hne].
    + split.
      * intros [<- | []]. exists tag_value. auto.
      * intros (tv & [= <-] & _ & ->). left. reflexivity.
  - simpl. split; [intros [] | intros (tv & Hnone & _); discriminate Hnone].
Qed.

Lemma selected_eligible (tag_key : string) (i : instance) :
  selected tag_key i
  = if eligible tag_key i then [entry_of tag_key i] else [].
Proof.
  unfold selected, collect_instance, eligible, entry_of, tag_value_of, truthy.
  destruct (tags_of i !! tag_key) as [tag_value |]; [| reflexivity].
  destruct (String.eqb tag_value ""); reflexivity.
Qed.

Lemma flat_map_selected (tag_key : string) (l : list instance) :
  flat_map (selected tag_key) l
  = map (entry_of tag_key) (List.filter (eligible tag_key) l).
Proof.
  induction l as [| i l IH]; [reflexivity |].
  cbn [flat_map List.filter]. rewrite selected_eligible, IH.
  destruct (eligible tag_key i); reflexivity.
Qed.

(** X1: when the inventory call succeeds, [get_ec2_instances_with_tag]
    returns the instances of the answer, reservation after reservation,
    that have a non-empty value for the key, each of them once and in
    the order of the answer, as the tuple of its id, that value and all
    its tags. *)
Theorem get_ec2_instances_with_tag_result (P : Platform) (tag_key : string)
    (s : state P) (response : reservations) (w' : world P) :
  describe_instances P (filters_for tag_key) (outside s) = (Ret response, w') ->
  fst (get_ec2_instances_with_tag tag_key s)
  = Ret (map (entry_of tag_key)
           (List.filter (eligible tag_key) (concat response)))
  /\ forall i,
       eligible tag_key i = true
       <-> exists tag_value,
             tags_of i !! tag_key = Some tag_value /\ tag_value <> "".
Proof.
  intros Hdescribe. split.
  - rewrite (get_ec2_instances_with_tag_ok _ _ _ _ Hdescribe). simpl.
    f_equal. rewrite collect_instances_flat_map. apply flat_map_selected.
  - intros i. unfold eligible, tag_value_of.
    destruct (tags_of i !! tag_key) as [tag_value |].
    + destruct (String.eqb_spec tag_value "") as [-> | Hne]; simpl.
      * split; [discriminate | intros (tv & [= <-] & Hne); now contradiction Hne].
      * split; [intros _; exists tag_value; auto | reflexivity].
    + simpl. split; [discriminate | intros (tv & Hnone & _); discriminate Hnone].
Qed.

Lemma get_ec2_instances_with_tag_result_witness :
  fst (get_ec2_instances_with_tag "autostartstop"
         (invocation monday_morning (Ret holidays_2025)
            (Ret (fleet_with_empty_tag ++ three_instances)) []))
  = Ret (map (entry_of "autostartstop")
           [tagged "i-1" "true"; tagged "i-1" "true"; tagged "i-2" "start";
            tagged "i-3" "stop"]).
Proof.
  destruct (get_ec2_instances_with_tag_result
              (scripted monday_morning (Ret holidays_2025)
                 (Ret (fleet_with_empty_tag ++ three_instances)) [])
              "autostartstop"
              (invocation monday_morning (Ret holidays_2025)
                 (Ret (fleet_with_empty_tag ++ three_instances)) [])
              (fleet_with_empty_tag ++ three_instances) tt eq_refl)
    as [Hret _].
  rewrite Hret. vm_compute. reflexivity.
Defined.

(** ** The tags of an instance *)

Lemma tags_fold_absent (tags : list (string * string)) (k : string) :
  ~ In k (map fst tags) ->
  forall m : gmap string string,
    fold_left (fun d t => <[fst t := snd t]> d) tags m !! k = m !! k.
Proof.
  induction tags as [| [k' v'] tags IH]; intros Hnot m; simpl; [reflexivity |].
  rewrite IH by (intros Hin; apply Hnot; right; exact Hin).
  apply lookup_insert_ne. intros ->. apply Hnot. left. reflexivity.
Qed.

Lemma tags_fold_last (l l' : list (string * string)) (k v : string) :
  ~ In k (map fst l') ->
  forall m : gmap string string,
    fold_left (fun d t => <[fst t := snd t]> d) (l ++ (k, v) :: l') m !! k
    = Some v.
Proof.
  intros Hnot m. rewrite fold_left_app. simpl.
  rewrite (tags_fold_absent l' k Hnot). apply lookup_insert_eq.
Qed.

Lemma last_occurrence (tags : list (string * string)) (k : string) :
  In k (map fst tags) ->
  exists l v l', tags = l ++ (k, v) :: l' /\ ~ In k (map fst l').
Proof.
  induction tags as [| [k' v'] tags IH]; intros Hin; [destruct Hin |].
  destruct (in_dec string_dec k (map fst tags)) as [Hrest | Hrest].
  - destruct (IH Hrest) as (l & v & l' & -> & Hnot).
    exists ((k', v') :: l), v, l'. split; [reflexivity | exact Hnot].
  - destruct Hin as [Heq | Hin]; [| contradiction].
    simpl in Heq. subst k'. exists [], v', tags. split; [reflexivity | exact Hrest].
Qed.

(** X3: in the tag dictionary built from the list of pairs of an
    instance, a key has the value of the last pair that names it, and
    has no value exactly when the instance has no ['Tags'] entry or no
    pair names the key. *)
Theorem tags_of_lookup (i : instance) (k : string) :
  (forall l v l',
     Tags i = Some (l ++ (k, v) :: l') -> ~ In k (map fst l') ->
     tags_of i !! k = Some v)
  /\ (tags_of i !! k = None
      <-> forall tags, Tags i = Some tags -> ~ In k (map fst tags)).
Proof.
  unfold tags_of. split.
  - intros l v l' -> Hnot. apply tags_fold_last, Hnot.
  - destruct (Tags i) as [tags |].
    + split.
      * intros Hnone tags' [= <-] Hin.
        destruct (last_occurrence tags k Hin) as (l & v & l' & -> & Hnot).
        rewrite (tags_fold_last l l' k v Hnot) in Hnone. discriminate Hnone.
      * intros Hnot. rewrite (tags_fold_absent tags k (Hnot tags eq_refl)).
        apply lookup_empty.
    + split; [intros _ tags Hsome; discriminate Hsome | intros _; reflexivity].
Qed.

Lemma tags_of_lookup_witness :
  tags_of {| InstanceId := "i-9";
             Tags := Some [("autostartstop", "stop"); ("Name", "db");
                           ("autostartstop", "auto")] |}
    !! "autostartstop"
  = Some "auto".
Proof.
  apply (tags_of_lookup
           {| InstanceId := "i-9";
              Tags := Some [("autostartstop", "stop"); ("Name", "db");
                            ("autostartstop", "auto")] |}
           "autostartstop")
    with (l := [("autostartstop", "stop"); ("Name", "db")]) (l' := []).
  - reflexivity.
  - intros [].
Defined.

(** X2: an instance without a ['Tags'] entry, or whose tags do not
    name the key, is left out of the result of
    [get_ec2_instances_with_tag], which is the one of the same answer
    without that instance. *)
Theorem untagged_instance_left_out (P : Platform) (tag_key : string)
    (s : state P) (rs1 rs2 : reservations) (r1 r2 : list instance)
    (i : instance) (w' : world P) :
  (forall tags, Tags i = Some tags -> ~ In tag_key (map fst tags)) ->
  describe_instances P (filters_for tag_key) (outside s)
  = (Ret (rs1 ++ (r1 ++ i :: r2) :: rs2), w') ->
  fst (get_ec2_instances_with_tag tag_key s)
  = Ret (collect_instances tag_key (rs1 ++ (r1 ++ r2) :: rs2)).
Proof.
  intros Hno Hdescribe.
  rewrite (get_ec2_instances_with_tag_ok _ _ _ _ Hdescribe). simpl. f_equal.
  assert (Hnone : tags_of i !! tag_key = None).
  { unfold tags_of. destruct (Tags i) as [tags |]; [| reflexivity].
    rewrite (tags_fold_absent tags tag_key (Hno tags eq_refl)).
    apply lookup_empty. }
  rewrite !collect_instances_flat_map, !concat_app. simpl.
  rewrite !flat_map_app. simpl.
  replace (selected tag_key i) with (@nil instance_info);
    [reflexivity |].
  unfold selected, collect_instance. rewrite Hnone. reflexivity.
Qed.

Lemma untagged_instance_left_out_witness :
  fst (get_ec2_instances_with_tag "autostartstop"
         (invocation monday_morning (Ret holidays_2025)
            (Ret fleet_with_untagged) []))
  = Ret (collect_instances "autostartstop"
           [[tagged "i-1" "true";
             {| InstanceId := "i-3"; Tags := Some [("Name", "batch")] |}]]).
Proof.
  apply (untagged_instance_left_out
           (scripted monday_morning (Ret holidays_2025)
              (Ret fleet_with_untagged) [])
           "autostartstop"
           (invocation monday_morning (Ret holidays_2025)
              (Ret fleet_with_untagged) [])
           [] [] [tagged "i-1" "true"]
           [{| InstanceId := "i-3"; Tags := Some [("Name", "batch")] |}]
           {| InstanceId := "i-2"; Tags := None |} tt).
  - intros tags Hsome. discriminate Hsome.
  - reflexivity.
Defined.

(** ** The inventory fails or is empty *)

(** X4: when the inventory call raises, [manage_ec2_instances] logs the
    error, reports that there is no target and returns normally; the
    failed inventory call is the only call it makes. *)
Theorem manage_ec2_instances_inventory_error (P : Platform)
    (default_action : string) (s : state P) (e : exn) (w' : world P) :
  describe_instances P (filters_for "autostartstop") (outside s)
  = (Raise e, w') ->
  manage_ec2_instances default_action s
  = (Ret tt,
     {| outside := w';
        trace := trace s
                 ++ [Call (DescribeInstances (filters_for "autostartstop"));
                     Log ERROR (MsgDescribeFailed e);
                     Log INFO MsgNoTargets] |}).
Proof.
  intros Hdescribe. unfold manage_ec2_instances, bind.
  rewrite (get_ec2_instances_with_tag_error _ _ _ _ Hdescribe).
  unfold logger_info, emit. simpl. rewrite <- app_assoc. reflexivity.
Qed.

Lemma manage_ec2_instances_inventory_error_witness :
  manage_ec2_instances "stop"
    (invocation monday_evening (Ret holidays_2025) (Raise client_error) [])
  = (Ret tt,
     logged (invocation monday_evening (Ret holidays_2025)
               (Raise client_error) [])
       [Call (DescribeInstances (filters_for "autostartstop"));
        Log ERROR (MsgDescribeFailed client_error);
        Log INFO MsgNoTargets]).
Proof.
  apply (manage_ec2_instances_inventory_error
           (scripted monday_evening (Ret holidays_2025) (Raise client_error) [])
           "stop"
           (invocation monday_evening (Ret holidays_2025)
              (Raise client_error) [])
           client_error tt).
  reflexivity.
Defined.

(** X5: when no instance of the answer has a non-empty value for the
    tag, [manage_ec2_instances] reports that there is no target and
    makes no call besides the inventory call. *)
Theorem manage_ec2_instances_no_target (P : Platform)
    (default_action : string) (s : state P)
    (response : reservations) (w' : world P) :
  describe_instances P (filters_for "autostartstop") (outside s)
  = (Ret response, w') ->
  (forall r i, In r response -> In i r ->
               tags_of i !! "autostartstop" = None
               \/ tags_of i !! "autostartstop" = Some "") ->
  manage_ec2_instances default_action s
  = (Ret tt,
     {| outside := w';
        trace := trace s
                 ++ [Call (DescribeInstances (filters_for "autostartstop"));
                     Log INFO (MsgTargets []);
                     Log INFO MsgNoTargets] |}).
Proof.
  intros Hdescribe Hnone.
  assert (Hempty : collect_instances "autostartstop" response = []).
  { rewrite collect_instances_flat_map.
    destruct (flat_map _ _) as [| info rest] eqn:Hflat; [reflexivity |].
    assert (Hin : In info (flat_map (selected "autostartstop") (concat response)))
      by (rewrite Hflat; left; reflexivity).
    apply in_flat_map in Hin as (i & Hi & Hsel).
    apply in_concat in Hi as (r & Hr & Hir).
    apply selected_iff in Hsel as (tv & Htag & Hne & _).
    destruct (Hnone r i Hr Hir) as [H | H]; rewrite H in Htag;
      [discriminate Htag | injection Htag as <-; now contradiction Hne]. }
  unfold manage_ec2_instances, bind.
  rewrite (get_ec2_instances_with_tag_ok _ _ _ _ Hdescribe), Hempty.
  unfold logger_info, emit. simpl. rewrite <- app_assoc. reflexivity.
Qed.

Lemma manage_ec2_instances_no_target_witness :
  manage_ec2_instances "start"
    (invocation monday_morning (Ret holidays_2025)
       (Ret [[tagged "i-2" ""]; []]) [])
  = (Ret tt,
     logged (invocation monday_morning (Ret holidays_2025)
               (Ret [[tagged "i-2" ""]; []]) [])
       [Call (DescribeInstances (filters_for "autostartstop"));
        Log INFO (MsgTargets []);
        Log INFO MsgNoTargets]).
Proof.
  apply (manage_ec2_instances_no_target
           (scripted monday_morning (Ret holidays_2025)
              (Ret [[tagged "i-2" ""]; []]) [])
           "start"
           (invocation monday_morning (Ret holidays_2025)
              (Ret [[tagged "i-2" ""]; []]) [])
           [[tagged "i-2" ""]; []] tt).
  - reflexivity.
  - intros r i [<- | [<- | []]] Hi; [| destruct Hi].
    destruct Hi as [<- | []]. right. vm_compute. reflexivity.
Defined.

(** ** Where the commands come from *)

Lemma command_of_origin (default_action : string) (info : instance_info)
    (c : api_call) :
  In c (command_of default_action info) ->
  (c = StartInstances [fst (fst info)]
   /\ default_action = "start" /\ start_values (snd (fst info)))
  \/ (c = StopInstances [fst (fst info)]
      /\ default_action = "stop" /\ stop_values (snd (fst info))).
Proof.
  unfold command_of, resolveInstanceAction.
  destruct (should_start _ _) eqn:Hstart.
  - intros [<- | []]. left. apply should_start_iff in Hstart as [Hda Hv].
    split; [reflexivity | split; [exact Hda | exact Hv]].
  - destruct (should_stop _ _) eqn:Hstop; [| intros []].
    intros [<- | []]. right. apply should_stop_iff in Hstop as [Hda Hv].
    split; [reflexivity | split; [exact Hda | exact Hv]].
Qed.

Lemma collect_instances_In (tag_key : string) (response : reservations)
    (info : instance_info) :
  In info (collect_instances tag_key response)
  <-> exists r i tag_value,
        In r response /\ In i r
        /\ tags_of i !! tag_key = Some tag_value
        /\ tag_value <> ""
        /\ info = (InstanceId i, tag_value, tags_of i).
Proof.
  rewrite collect_instances_flat_map, in_flat_map. split.
  - intros (i & Hi & Hsel). apply in_concat in Hi as (r & Hr & Hir).
    apply selected_iff in Hsel as (tv & Htag & Hne & ->).
    exists r, i, tv. auto.
  - intros (r & i & tv & Hr & Hir & Htag & Hne & ->).
    exists i. split; [apply in_concat; eauto |].
    apply selected_iff. eauto.
Qed.

(** X6: every start or stop call of [manage_ec2_instances] names one
    instance, which the inventory returned with a tag value that asks
    for it: a start is issued only under the default action "start" for
    a value "true", "start" or "auto", a stop only under "stop" for
    "true", "stop" or "auto". *)
Theorem manage_ec2_instances_command_origin (P : Platform)
    (default_action : string) (s : state P)
    (response : reservations) (w' : world P) :
  describe_instances P (filters_for "autostartstop") (outside s)
  = (Ret response, w') ->
  exists commands,
    calls_of (trace (snd (manage_ec2_instances default_action s)))
    = calls_of (trace s)
      ++ DescribeInstances (filters_for "autostartstop") :: commands
    /\ forall c, In c commands ->
         exists r i tag_value,
           In r response /\ In i r
           /\ tags_of i !! "autostartstop" = Some tag_value
           /\ ((c = StartInstances [InstanceId i]
                /\ default_action = "start" /\ start_values tag_value)
               \/ (c = StopInstances [InstanceId i]
                   /\ default_action = "stop" /\ stop_values tag_value)).
Proof.
  intros Hdescribe.
  destruct (manage_ec2_instances_run default_action s _ _ Hdescribe)
    as (_ & Hcalls & _).
  eexists. split; [exact Hcalls |].
  intros c Hc. apply in_flat_map in Hc as (info & Hinfo & Hc).
  apply collect_instances_In in Hinfo as (r & i & tv & Hr & Hir & Htag & _ & ->).
  exists r, i, tv. repeat (split; [assumption |]).
  apply (command_of_origin _ _ _ Hc).
Qed.

Lemma manage_ec2_instances_command_origin_witness :
  exists commands,
    calls_of (trace (snd (manage_ec2_instances "stop"
                            (invocation monday_evening (Ret holidays_2025)
                               (Ret three_instances) []))))
    = DescribeInstances (filters_for "autostartstop") :: commands
    /\ commands = [StopInstances ["i-1"]; StopInstances ["i-3"]].
Proof.
  destruct (manage_ec2_instances_command_origin
              (scripted monday_evening (Ret holidays_2025)
                 (Ret three_instances) [])
              "stop"
              (invocation monday_evening (Ret holidays_2025)
                 (Ret three_instances) [])
              three_instances tt eq_refl)
    as (commands & Hcalls & _).
  exists commands. split; [exact Hcalls |].
  revert Hcalls. vm_compute. intros [= <-]. reflexivity.
Defined.

(** ** One start or stop call *)

(** X7: [start_instances] and [stop_instances] never raise: each
    announces the call, makes it once with the ids it was given, and
    closes with the response on success or with the caught error on
    failure; the world is the one the call left. *)
Theorem start_stop_instances_run (P : Platform) (ids : list string)
    (resource_type : string) (tags : gmap string string) (s : state P) :
  start_instances ids resource_type tags s
  = (Ret tt,
     {| outside := snd (start_instances_api P ids (outside s));
        trace := trace s
                 ++ [Log INFO (MsgStarting resource_type ids tags);
                     Call (StartInstances ids);
                     start_outcome resource_type
                       (fst (start_instances_api P ids (outside s)))] |})
  /\ stop_instances ids resource_type tags s
     = (Ret tt,
        {| outside := snd (stop_instances_api P ids (outside s));
           trace := trace s
                    ++ [Log INFO (MsgStopping resource_type ids tags);
                        Call (StopInstances ids);
                        stop_outcome resource_type
                          (fst (stop_instances_api P ids (outside s)))] |}).
Proof.
  unfold start_instances, stop_instances, bind, try_except, logger_info,
    logger_error, emit, api. simpl.
  destruct (start_instances_api P ids (outside s)) as [[resp1 | e1] w1],
           (stop_instances_api P ids (outside s)) as [[resp2 | e2] w2];
    simpl; rewrite <- !app_assoc; split; reflexivity.
Qed.

(** ** The holiday list, in every case *)

Lemma get_japan_holidays_calls {P} (s : state P) :
  exists holidays s',
    get_japan_holidays s = (Ret holidays, s')
    /\ calls_of (trace s')
       = calls_of (trace s) ++ [Urlopen (holiday_url_in s)].
Proof.
  unfold get_japan_holidays. rewrite bind_datetime_now.
  fold (holiday_url_in s).
  unfold try_except, bind, api, io, lift, logger_info, logger_error, emit, ret.
  simpl.
  destruct (urlopen P _ _) as [[response | e] w1]; simpl;
    [| do 2 eexists; split; [reflexivity |];
       simpl; rewrite !calls_of_app; simpl; now rewrite app_nil_r].
  destruct (http_read P response w1) as [[raw | e] w2]; simpl;
    [| do 2 eexists; split; [reflexivity |];
       simpl; rewrite !calls_of_app; simpl; now rewrite app_nil_r].
  destruct (decode_utf8 P raw) as [data | e]; simpl;
    [| do 2 eexists; split; [reflexivity |];
       simpl; rewrite !calls_of_app; simpl; now rewrite app_nil_r].
  destruct (json_loads P data) as [holidays_data | e]; simpl;
    [| do 2 eexists; split; [reflexivity |];
       simpl; rewrite !calls_of_app; simpl; now rewrite app_nil_r].
  destruct (dict_keys holidays_data) as [holidays | e]; simpl;
    do 2 eexists; (split; [reflexivity |]);
    simpl; rewrite !calls_of_app; simpl; now rewrite app_nil_r.
Qed.

(** X8: [get_japan_holidays] never raises, whatever the endpoint and the
    parser do, and makes exactly one request, for the address of the
    year the clock shows in UTC+9. *)
Theorem get_japan_holidays_one_request (P : Platform) (s : state P) :
  exists holidays,
    fst (get_japan_holidays s) = Ret holidays
    /\ calls_of (trace (snd (get_japan_holidays s)))
       = calls_of (trace s)
         ++ [Urlopen ("https://holidays-jp.github.io/api/v1/"
                      +:+ pretty (year (now_in s)) +:+ "/date.json")].
Proof.
  destruct (get_japan_holidays_calls s) as (holidays & s' & Hrun & Hcalls).
  exists holidays. rewrite Hrun. split; [reflexivity | exact Hcalls].
Qed.

(** X9: when the request, the read, the decoding and the parse succeed
    and the document is an object, [get_japan_holidays] returns the keys
    of the object in the order of the document and logs them with the
    year. *)
Theorem get_japan_holidays_keys (P : Platform) (s : state P)
    (response : http_response P) (w1 w2 : world P) (raw data : string)
    (items : list (string * json)) :
  urlopen P (holiday_url_in s) (outside (ticked s)) = (Ret response, w1) ->
  http_read P response w1 = (Ret raw, w2) ->
  decode_utf8 P raw = Ret data ->
  json_loads P data = Ret (JObj items) ->
  get_japan_holidays s
  = (Ret (map fst items),
     {| outside := w2;
        trace := trace s
                 ++ [Call (Urlopen (holiday_url_in s));
                     Log INFO (MsgHolidays (year (now_in s)) (map fst items))] |}).
Proof.
  intros Hopen Hread Hdecode Hloads.
  unfold get_japan_holidays. rewrite bind_datetime_now.
  fold (holiday_url_in s).
  unfold try_except, bind, api, io, lift, logger_info, emit, ret.
  rewrite Hopen. simpl. rewrite Hread. simpl.
  rewrite Hdecode, Hloads. simpl. rewrite <- app_assoc. reflexivity.
Qed.

Lemma get_japan_holidays_keys_witness :
  fst (get_japan_holidays
         (invocation monday_morning (Ret holidays_2025) (Ret []) []))
  = Ret ["2025-01-01"; "2025-01-13"; "2025-05-03"].
Proof.
  rewrite (get_japan_holidays_keys
             (scripted monday_morning (Ret holidays_2025) (Ret []) [])
             (invocation monday_morning (Ret holidays_2025) (Ret []) [])
             tt tt tt "" ""
             [("2025-01-01", JStr "New Year's Day");
              ("2025-01-13", JStr "Coming of Age Day");
              ("2025-05-03", JStr "Constitution Memorial Day")]
             eq_refl eq_refl eq_refl eq_refl).
  reflexivity.
Defined.

(** ** What [is_japan_holiday] returns *)

Lemma weekday_range (dt : datetime) : 0 <= weekday dt < 7.
Proof. unfold weekday. apply Z.mod_pos_bound. lia. Qed.

Lemma is_japan_holiday_run {P} (s : state P) :
  exists holidays s2,
    get_japan_holidays (ticked s) = (Ret holidays, s2)
    /\ calls_of (trace s2)
       = calls_of (trace s) ++ [Urlopen (holiday_url_in (ticked s))]
    /\ is_japan_holiday s
       = if list_contains holidays (strftime_Ymd (now_in s))
         then (Raise list_index_type_error, s2)
         else if 5 <=? weekday (now_in s)
              then (Ret true, logged s2 [Log INFO MsgTodayIsWeekend])
              else (Ret false, s2).
Proof.
  destruct (get_japan_holidays_calls (ticked s))
    as (holidays & s2 & Hrun & Hcalls).
  exists holidays, s2. split; [exact Hrun |]. split; [exact Hcalls |].
  unfold is_japan_holiday. rewrite bind_datetime_now.
  unfold bind at 1. rewrite Hrun.
  destruct (list_contains holidays _); [reflexivity |].
  destruct (5 <=? weekday (now_in s)); reflexivity.
Qed.

(** X10: [is_japan_holiday] returns a value only on a day that the
    fetched list does not name, and the value is [True] exactly on a
    Saturday or a Sunday. *)
Theorem is_japan_holiday_value (P : Platform) (s : state P) (b : bool) :
  fst (is_japan_holiday s) = Ret b ->
  (exists holidays,
     fst (get_japan_holidays (ticked s)) = Ret holidays
     /\ ~ In (strftime_Ymd (now_in s)) holidays)
  /\ (b = true <-> weekday (now_in s) = 5 \/ weekday (now_in s) = 6).
Proof.
  intros Hret.
  destruct (is_japan_holiday_run s) as (holidays & s2 & Hget & _ & Hrun).
  rewrite Hrun in Hret.
  destruct (list_contains holidays _) eqn:Hlisted; [discriminate Hret |].
  split.
  - exists holidays. rewrite Hget. split; [reflexivity |].
    intros Hin. apply list_contains_In in Hin. congruence.
  - pose proof (weekday_range (now_in s)) as Hrange.
    destruct (Z.leb_spec 5 (weekday (now_in s))); simpl in Hret;
      injection Hret as <-; split; intros H'; try reflexivity;
      try discriminate H'; lia.
Qed.

Lemma is_japan_holiday_value_witness :
  weekday (now_in (invocation saturday_morning (Ret holidays_2025) (Ret []) []))
  = 5
  \/ weekday (now_in (invocation saturday_morning (Ret holidays_2025)
                        (Ret []) []))
     = 6.
Proof.
  apply (is_japan_holiday_value
           (scripted saturday_morning (Ret holidays_2025) (Ret []) [])
           (invocation saturday_morning (Ret holidays_2025) (Ret []) [])
           true);
    reflexivity.
Defined.

(** ** The default action of an invocation *)

Lemma decide_default_action_cases {P} (s : state P) :
  exists holidays s2,
    get_japan_holidays (ticked (ticked s)) = (Ret holidays, s2)
    /\ calls_of (trace s2)
       = calls_of (trace s) ++ [Urlopen (holiday_url_in (ticked (ticked s)))]
    /\ decide_default_action s
       = if list_contains holidays (strftime_Ymd (now_in (ticked s)))
         then (Raise list_index_type_error, s2)
         else if 5 <=? weekday (now_in (ticked s))
              then (Ret "stop",
                    logged s2 [Log INFO MsgTodayIsWeekend;
                               Log INFO MsgRestDayStopOnly])
              else (Ret (if (8 <=? hour (now_in s)) && (hour (now_in s) <? 18)
                         then "start" else "stop"),
                    s2).
Proof.
  destruct (is_japan_holiday_run (ticked s))
    as (holidays & s2 & Hget & Hcalls & Hrun).
  exists holidays, s2. split; [exact Hget |]. split; [exact Hcalls |].
  unfold decide_default_action, bind at 1.
  rewrite determine_action_run. fold (ticked s).
  unfold bind at 1. rewrite Hrun.
  destruct (list_contains holidays _); [reflexivity |].
  destruct (5 <=? weekday (now_in (ticked s))); [| reflexivity].
  unfold bind, logger_info, emit, ret, logged. simpl.
  rewrite <- app_assoc. reflexivity.
Qed.

(** The calls made up to the decision, whatever its outcome. *)
Lemma decide_default_action_calls {P} (s : state P) :
  calls_of (trace (snd (decide_default_action s)))
  = calls_of (trace s) ++ [Urlopen (holiday_url_in (ticked (ticked s)))].
Proof.
  destruct (decide_default_action_cases s)
    as (holidays & s2 & _ & Hcalls & ->).
  destruct (list_contains holidays _); [exact Hcalls |].
  destruct (5 <=? weekday (now_in (ticked s))); [| exact Hcalls].
  simpl. rewrite calls_of_app, Hcalls. simpl. now rewrite app_nil_r.
Qed.

Lemma decide_default_action_values {P} (s : state P)
    (default_action : string) :
  fst (decide_default_action s) = Ret default_action ->
  (default_action = "start" \/ default_action = "stop")
  /\ (default_action = "start" ->
      8 <= hour (now_in s) < 18
      /\ 0 <= weekday (now_in (ticked s)) <= 4
      /\ exists holidays,
           fst (get_japan_holidays (ticked (ticked s))) = Ret holidays
           /\ ~ In (strftime_Ymd (now_in (ticked s))) holidays).
Proof.
  intros Hret.
  destruct (decide_default_action_cases s)
    as (holidays & s2 & Hget & _ & Hrun).
  rewrite Hrun in Hret. clear Hrun.
  destruct (list_contains holidays _) eqn:Hlisted; [discriminate Hret |].
  destruct (Z.leb_spec 5 (weekday (now_in (ticked s)))) as [Hwe | Hwd].
  - injection Hret as <-. split; [right; reflexivity | discriminate].
  - destruct (Z.leb_spec 8 (hour (now_in s))) as [H8 | H8];
      destruct (Z.ltb_spec (hour (now_in s)) 18) as [H18 | H18];
      simpl in Hret; injection Hret as <-;
      (split; [auto |]); try discriminate.
    intros _. split; [lia |].
    split; [pose proof (weekday_range (now_in (ticked s))); lia |].
    exists holidays. rewrite Hget. split; [reflexivity |].
    intros Hin. apply list_contains_In in Hin. congruence.
Qed.

(** X11: the default action that leaves the first statements of
    [lambda_handler] is "start" or "stop"; it is "start" only when the
    hour read by [determine_action] is in the window from 8 to 18 and
    the day read by [is_japan_holiday] is a Monday to Friday that the
    fetched list does not name. *)
Theorem decide_default_action_start (P : Platform) (s : state P)
    (default_action : string) :
  fst (decide_default_action s) = Ret default_action ->
  (default_action = "start" \/ default_action = "stop")
  /\ (default_action = "start" ->
      8 <= hour (now_in s) < 18
      /\ 0 <= weekday (now_in (ticked s)) <= 4
      /\ exists holidays,
           fst (get_japan_holidays (ticked (ticked s))) = Ret holidays
           /\ ~ In (strftime_Ymd (now_in (ticked s))) holidays).
Proof. apply decide_default_action_values. Qed.

Lemma decide_default_action_start_witness :
  8 <= hour (now_in (invocation monday_morning (Ret holidays_2025) (Ret []) []))
  < 18.
Proof.
  apply (decide_default_action_start
           (scripted monday_morning (Ret holidays_2025) (Ret []) [])
           (invocation monday_morning (Ret holidays_2025) (Ret []) [])
           "start");
    reflexivity.
Defined.

(** ** The whole invocation *)

Lemma lambda_handler_try_decided {P} (event : json) (s s1 : state P)
    (default_action : string) :
  decide_default_action s = (Ret default_action, s1) ->
  lambda_handler_try event s
  = match dict_get event "target" (JStr "all") with
    | Raise e => (Raise e, s1)
    | Ret target =>
        if json_in_strings target ["ec2"; "all"]
        then manage_ec2_instances default_action
               (logged s1 [Log INFO (MsgDefaultAction default_action target)])
        else (Ret tt,
              logged s1 [Log INFO (MsgDefaultAction default_action target)])
    end.
Proof.
  intros Hdecide. unfold lambda_handler_try, bind at 1. rewrite Hdecide.
  unfold bind at 1, lift.
  destruct (dict_get event "target" (JStr "all")) as [target | e];
    [| reflexivity].
  rewrite bind_logger_info.
  destruct (json_in_strings target ["ec2"; "all"]); reflexivity.
Qed.

Lemma lambda_handler_try_undecided {P} (event : json) (s s1 : state P)
    (e : exn) :
  decide_default_action s = (Raise e, s1) ->
  lambda_handler_try event s = (Raise e, s1).
Proof.
  intros Hdecide. unfold lambda_handler_try, bind at 1. rewrite Hdecide.
  reflexivity.
Qed.

Lemma manage_ec2_instances_calls {P} (default_action : string) (s : state P) :
  exists instances_info,
    fst (manage_ec2_instances default_action s) = Ret tt
    /\ calls_of (trace (snd (manage_ec2_instances default_action s)))
       = calls_of (trace s)
         ++ DescribeInstances (filters_for "autostartstop")
            :: flat_map (command_of default_action) instances_info.
Proof.
  destruct (describe_instances P (filters_for "autostartstop") (outside s))
    as [[response | e] w'] eqn:Hdescribe.
  - exists (collect_instances "autostartstop" response).
    destruct (manage_ec2_instances_run default_action s _ _ Hdescribe)
      as (Hret & Hcalls & _).
    split; [exact Hret | exact Hcalls].
  - exists []. unfold manage_ec2_instances, bind.
    rewrite (get_ec2_instances_with_tag_error _ _ _ _ Hdescribe).
    unfold logger_info, emit. simpl. split; [reflexivity |].
    rewrite !calls_of_app. simpl. now rewrite app_nil_r.
Qed.

(** The calls of an invocation: the holiday request, and then either
    nothing or the inventory call and the commands of one default
    action. *)
Lemma lambda_handler_calls {P} (event : json) (s : state P) :
  exists rest,
    calls_of (trace (snd (lambda_handler event s)))
    = calls_of (trace s)
      ++ Urlopen (holiday_url_in (ticked (ticked s))) :: rest
    /\ (rest = []
        \/ exists default_action instances_info,
             fst (decide_default_action s) = Ret default_action
             /\ rest = DescribeInstances (filters_for "autostartstop")
                       :: flat_map (command_of default_action) instances_info).
Proof.
  pose proof (decide_default_action_calls s) as Hcalls.
  unfold lambda_handler, try_except.
  destruct (decide_default_action s) as [[default_action | e] s1] eqn:Hdecide;
    simpl in Hcalls.
  - rewrite (lambda_handler_try_decided event s s1 _ Hdecide).
    destruct (dict_get event "target" (JStr "all")) as [target | e].
    + destruct (json_in_strings target ["ec2"; "all"]).
      * set (s2 := logged s1 _).
        destruct (manage_ec2_instances_calls default_action s2)
          as (instances_info & Hret & Hmanage).
        destruct (manage_ec2_instances default_action s2) as [r s3].
        simpl in Hret, Hmanage. subst r.
        exists (DescribeInstances (filters_for "autostartstop")
                :: flat_map (command_of default_action) instances_info).
        split; [| right; eauto].
        simpl. rewrite Hmanage. subst s2. simpl.
        rewrite calls_of_app, Hcalls. simpl.
        rewrite app_nil_r, <- app_assoc. reflexivity.
      * exists []. split; [| left; reflexivity].
        simpl. rewrite calls_of_app, Hcalls. simpl. now rewrite app_nil_r.
    + exists []. split; [| left; reflexivity].
      unfold logger_error, emit. simpl.
      rewrite calls_of_app, Hcalls. simpl. now rewrite app_nil_r.
  - rewrite (lambda_handler_try_undecided event s s1 e Hdecide).
    exists []. split; [| left; reflexivity].
    unfold logger_error, emit. simpl.
    rewrite calls_of_app, Hcalls. simpl. now rewrite app_nil_r.
Qed.

(** X12: on a day that the fetched holiday list names, whatever the
    weekday, the hour and the event, [lambda_handler] logs the
    [TypeError] of [is_japan_holiday] and returns; the holiday request
    is the only call of the invocation. *)
Theorem lambda_handler_listed_day (P : Platform) (event : json)
    (s : state P) (holidays : list string) :
  fst (get_japan_holidays (ticked (ticked s))) = Ret holidays ->
  In (strftime_Ymd (now_in (ticked s))) holidays ->
  lambda_handler event s
  = (Ret tt,
     logged (snd (get_japan_holidays (ticked (ticked s))))
       [Log ERROR (MsgHandlerFailed list_index_type_error)])
  /\ calls_of (trace (snd (lambda_handler event s)))
     = calls_of (trace s) ++ [Urlopen (holiday_url_in (ticked (ticked s)))].
Proof.
  intros Hget Hin.
  destruct (decide_default_action_cases s)
    as (holidays' & s2 & Hrun & Hcalls & Hdecide).
  rewrite Hrun in Hget. simpl in Hget. injection Hget as ->.
  apply list_contains_In in Hin. rewrite Hin in Hdecide.
  assert (Hhandler : lambda_handler event s
                     = (Ret tt, logged s2 [Log ERROR (MsgHandlerFailed
                                                       list_index_type_error)])).
  { unfold lambda_handler, try_except.
    rewrite (lambda_handler_try_undecided event s s2 _ Hdecide). reflexivity. }
  rewrite Hhandler, Hrun. split; [reflexivity |].
  simpl. rewrite calls_of_app, Hcalls. simpl. now rewrite app_nil_r.
Qed.

Lemma lambda_handler_listed_day_witness :
  calls_of (trace (snd (lambda_handler (JObj [("target", JStr "ec2")])
                          (invocation constitution_day_morning
                             (Ret holidays_2025) (Ret three_instances) []))))
  = [] ++ [Urlopen (holiday_url_in
                      (ticked (ticked (invocation constitution_day_morning
                                         (Ret holidays_2025)
                                         (Ret three_instances) []))))].
Proof.
  apply (lambda_handler_listed_day
           (scripted constitution_day_morning (Ret holidays_2025)
              (Ret three_instances) [])
           (JObj [("target", JStr "ec2")])
           (invocation constitution_day_morning (Ret holidays_2025)
              (Ret three_instances) [])
           ["2025-01-01"; "2025-01-13"; "2025-05-03"]).
  - reflexivity.
  - vm_compute. auto.
Defined.

(** X13: with a target other than "ec2" and "all" (such as "rds", or a
    value that is not a string) [lambda_handler] logs the default action
    and returns without any EC2 call; the holiday request has been made
    all the same. *)
Theorem lambda_handler_other_target (P : Platform) (event target : json)
    (s s1 : state P) (default_action : string) :
  decide_default_action s = (Ret default_action, s1) ->
  dict_get event "target" (JStr "all") = Ret target ->
  json_in_strings target ["ec2"; "all"] = false ->
  lambda_handler event s
  = (Ret tt, logged s1 [Log INFO (MsgDefaultAction default_action target)])
  /\ calls_of (trace (snd (lambda_handler event s)))
     = calls_of (trace s) ++ [Urlopen (holiday_url_in (ticked (ticked s)))].
Proof.
  intros Hdecide Hget Htarget.
  pose proof (decide_default_action_calls s) as Hcalls.
  rewrite Hdecide in Hcalls. simpl in Hcalls.
  unfold lambda_handler, try_except.
  rewrite (lambda_handler_try_decided event s s1 _ Hdecide), Hget, Htarget.
  split; [reflexivity |].
  simpl. rewrite calls_of_app, Hcalls. simpl. now rewrite app_nil_r.
Qed.

Lemma lambda_handler_other_target_witness :
  lambda_handler (JObj [("target", JStr "rds")])
    (invocation monday_morning (Ret holidays_2025) (Ret three_instances) [])
  = (Ret tt,
     logged (snd (decide_default_action
                    (invocation monday_morning (Ret holidays_2025)
                       (Ret three_instances) [])))
       [Log INFO (MsgDefaultAction "start" (JStr "rds"))]).
Proof.
  apply (lambda_handler_other_target
           (scripted monday_morning (Ret holidays_2025)
              (Ret three_instances) [])
           (JObj [("target", JStr "rds")]) (JStr "rds")
           (invocation monday_morning (Ret holidays_2025)
              (Ret three_instances) []));
    reflexivity.
Defined.

(** X14: an event that is not an object has no [get]: once the default
    action is decided, [lambda_handler] logs the [AttributeError] and
    returns without any EC2 call. *)
Theorem lambda_handler_event_not_object (P : Platform) (event : json)
    (s s1 : state P) (default_action : string) :
  decide_default_action s = (Ret default_action, s1) ->
  (forall items, event <> JObj items) ->
  lambda_handler event s
  = (Ret tt,
     logged s1 [Log ERROR (MsgHandlerFailed (no_attribute event "get"))])
  /\ calls_of (trace (snd (lambda_handler event s)))
     = calls_of (trace s) ++ [Urlopen (holiday_url_in (ticked (ticked s)))].
Proof.
  intros Hdecide Hnot.
  pose proof (decide_default_action_calls s) as Hcalls.
  rewrite Hdecide in Hcalls. simpl in Hcalls.
  assert (Hget : dict_get event "target" (JStr "all")
                 = Raise (no_attribute event "get"))
    by (destruct event; try reflexivity; now contradiction (Hnot items)).
  unfold lambda_handler, try_except.
  rewrite (lambda_handler_try_decided event s s1 _ Hdecide), Hget.
  split; [reflexivity |].
  unfold logger_error, emit. simpl.
  rewrite calls_of_app, Hcalls. simpl. now rewrite app_nil_r.
Qed.

Lemma lambda_handler_event_not_object_witness :
  lambda_handler (JArr [JStr "ec2"])
    (invocation monday_evening (Ret holidays_2025) (Ret three_instances) [])
  = (Ret tt,
     logged (snd (decide_default_action
                    (invocation monday_evening (Ret holidays_2025)
                       (Ret three_instances) [])))
       [Log ERROR (MsgHandlerFailed (no_attribute (JArr [JStr "ec2"]) "get"))]).
Proof.
  apply (lambda_handler_event_not_object
           (scripted monday_evening (Ret holidays_2025)
              (Ret three_instances) [])
           (JArr [JStr "ec2"])
           (invocation monday_evening (Ret holidays_2025)
              (Ret three_instances) [])
           _ "stop").
  - reflexivity.
  - intros items H. discriminate H.
Defined.

(** X15: for an event object whose ["target"] is absent, "ec2" or "all",
    once the default action is decided and the inventory call succeeds,
    the calls of the invocation are the holiday request, the inventory
    call and then, in the order of the inventory, the commands that the
    default action and the tag values resolve to. *)
Theorem lambda_handler_reconciles (P : Platform)
    (items : list (string * json)) (s s1 : state P)
    (default_action : string) (response : reservations) (w' : world P) :
  decide_default_action s = (Ret default_action, s1) ->
  assoc items "target" = None
  \/ assoc items "target" = Some (JStr "ec2")
  \/ assoc items "target" = Some (JStr "all") ->
  describe_instances P (filters_for "autostartstop") (outside s1)
  = (Ret response, w') ->
  fst (lambda_handler (JObj items) s) = Ret tt
  /\ calls_of (trace (snd (lambda_handler (JObj items) s)))
     = calls_of (trace s)
       ++ [Urlopen (holiday_url_in (ticked (ticked s)));
           DescribeInstances (filters_for "autostartstop")]
       ++ flat_map (command_of default_action)
            (collect_instances "autostartstop" response).
Proof.
  intros Hdecide Htarget Hdescribe.
  pose proof (decide_default_action_calls s) as Hcalls.
  rewrite Hdecide in Hcalls. simpl in Hcalls.
  unfold lambda_handler, try_except.
  rewrite (lambda_handler_try_decided (JObj items) s s1 _ Hdecide).
  assert (Hsel : exists target,
            dict_get (JObj items) "target" (JStr "all") = Ret target
            /\ json_in_strings target ["ec2"; "all"] = true).
  { simpl. destruct Htarget as [-> | [-> | ->]]; eexists; split; reflexivity. }
  destruct Hsel as (target & -> & ->).
  set (s2 := logged s1 _).
  destruct (manage_ec2_instances_run default_action s2 response w' Hdescribe)
    as (Hret & Hmanage & _).
  destruct (manage_ec2_instances default_action s2) as [r s3].
  simpl in Hret, Hmanage. subst r. split; [reflexivity |].
  simpl. rewrite Hmanage. subst s2. simpl.
  rewrite calls_of_app, Hcalls. simpl.
  rewrite app_nil_r, <- app_assoc. reflexivity.
Qed.

Lemma lambda_handler_reconciles_witness :
  calls_of (trace (snd (lambda_handler (JObj [])
                          (invocation monday_evening (Ret holidays_2025)
                             (Ret three_instances) ["i-3"]))))
  = [Urlopen "https://holidays-jp.github.io/api/v1/2025/date.json";
     DescribeInstances (filters_for "autostartstop");
     StopInstances ["i-1"]; StopInstances ["i-3"]].
Proof.
  destruct (lambda_handler_reconciles
              (scripted monday_evening (Ret holidays_2025)
                 (Ret three_instances) ["i-3"])
              []
              (invocation monday_evening (Ret holidays_2025)
                 (Ret three_instances) ["i-3"])
              _ "stop" three_instances tt eq_refl (or_introl eq_refl) eq_refl)
    as [_ Hcalls].
  rewrite Hcalls. vm_compute. reflexivity.
Defined.

(** X16: outside the window from 8 to 18 of the hour read by
    [determine_action], and on a Saturday or Sunday of the day read by
    [is_japan_holiday], an invocation of [lambda_handler] makes no start
    call, whatever the event, the holiday data and the inventory. *)
Theorem lambda_handler_no_start (P : Platform) (event : json) (s : state P) :
  ~ (8 <= hour (now_in s) < 18)
  \/ weekday (now_in (ticked s)) = 5
  \/ weekday (now_in (ticked s)) = 6 ->
  exists calls,
    calls_of (trace (snd (lambda_handler event s)))
    = calls_of (trace s) ++ calls
    /\ forall c, In c calls -> is_start c = false.
Proof.
  intros Hoff.
  destruct (lambda_handler_calls event s) as (rest & Hcalls & Hrest).
  eexists. split; [exact Hcalls |].
  intros c [<- | Hc]; [reflexivity |].
  destruct Hrest as [-> | (default_action & infos & Hdecide & ->)];
    [destruct Hc |].
  destruct Hc as [<- | Hc]; [reflexivity |].
  apply in_flat_map in Hc as (info & _ & Hc).
  apply command_of_origin in Hc as [(_ & -> & _) | (-> & _)]; [| reflexivity].
  destruct (decide_default_action_values s "start" Hdecide)
    as (_ & Hstart).
  destruct (Hstart eq_refl) as (Hhour & Hday & _). lia.
Qed.

Lemma lambda_handler_no_start_witness :
  exists calls,
    calls_of (trace (snd (lambda_handler (JObj [])
                            (invocation saturday_morning (Ret holidays_2025)
                               (Ret three_instances) []))))
    = [] ++ calls
    /\ forall c, In c calls -> is_start c = false.
Proof.
  apply (lambda_handler_no_start
           (scripted saturday_morning (Ret holidays_2025)
              (Ret three_instances) [])
           (JObj [])
           (invocation saturday_morning (Ret holidays_2025)
              (Ret three_instances) [])).
  right. left. vm_compute. reflexivity.
Defined.

(** X17: one invocation of [lambda_handler] never makes both a start
    call and a stop call: its calls are free of starts, or free of
    stops. *)
Theorem lambda_handler_one_direction (P : Platform) (event : json)
    (s : state P) :
  exists calls,
    calls_of (trace (snd (lambda_handler event s)))
    = calls_of (trace s) ++ calls
    /\ ((forall c, In c calls -> is_start c = false)
        \/ (forall c, In c calls -> is_stop c = false)).
Proof.
  destruct (lambda_handler_calls event s) as (rest & Hcalls & Hrest).
  eexists. split; [exact Hcalls |].
  destruct Hrest as [-> | (default_action & infos & _ & ->)].
  - left. intros c [<- | []]. reflexivity.
  - destruct (string_dec default_action "start") as [-> | Hne].
    + right. intros c [<- | [<- | Hc]]; [reflexivity | reflexivity |].
      apply in_flat_map in Hc as (info & _ & Hc).
      apply command_of_origin in Hc as [(-> & _) | (_ & Hda & _)];
        [reflexivity | discriminate Hda].
    + left. intros c [<- | [<- | Hc]]; [reflexivity | reflexivity |].
      apply in_flat_map in Hc as (info & _ & Hc).
      apply command_of_origin in Hc as [(_ & Hda & _) | (-> & _)];
        [contradiction | reflexivity].
Qed.
